(** * cuml.testing.strategies and cuml.common.import_utils

    A shallow embedding of the hypothesis search strategies of
    [python/cuml/testing/strategies.py] and of the import placeholders of
    [python/cuml/common/import_utils.py], with the properties of their
    specification.

    Python integers are [Z].  A search strategy is a function of the
    choice sequence handed out by the sampling engine; drawing consumes
    choices and ends in a value, in a rejection ([assume] failed) or in an
    exception. *)

From Stdlib Require Import ZArith List String Bool Lia QArith Qround.
From Stdlib Require DecimalString.
Import ListNotations.

Local Open Scope Z_scope.

(** ** Exceptions and outcomes *)

(** The exception classes the two modules raise or let through.
    [KeyboardInterrupt] and [SystemExit] derive from [BaseException] only. *)
Inductive exn : Type :=
| ValueError (msg : string)
| InvalidArgument (msg : string)
| TypeError (msg : string)
| ImportError (msg : string)
| UnavailableImportError (msg : string)
| OverflowError (msg : string)
| UserWarning (msg : string)
| KeyboardInterrupt
| SystemExit.

(** [isinstance(e, Exception)], what an [except Exception] clause catches. *)
Definition is_Exception (e : exn) : bool :=
  match e with
  | KeyboardInterrupt | SystemExit => false
  | _ => true
  end.

(** A Python call either returns or raises. *)
Inductive call (A : Type) : Type :=
| Returns (a : A)
| Raises (e : exn).
Arguments Returns {A} a.
Arguments Raises {A} e.

(** One sampling attempt: a value, a rejection (the engine discards the
    attempt and resamples) or an exception surfaced to the test. *)
Inductive outcome (A : Type) : Type :=
| Value (a : A)
| Rejected
| Raised (e : exn).
Arguments Value {A} a.
Arguments Rejected {A}.
Arguments Raised {A} e.

(** ** The sampling engine *)

Definition Source := list Z.

Definition Strategy (A : Type) : Type := Source -> outcome (A * Source).

Definition ret {A} (a : A) : Strategy A := fun src => Value (a, src).

Definition bind {A B} (s : Strategy A) (k : A -> Strategy B) : Strategy B :=
  fun src =>
    match s src with
    | Value (a, src') => k a src'
    | Rejected => Rejected
    | Raised e => Raised e
    end.

Declare Scope strategy_scope.
Delimit Scope strategy_scope with strategy.
Notation "x <- s ;; k" := (bind s (fun x => k))
  (at level 61, s at next level, right associativity) : strategy_scope.
Notation "' p <- s ;; k" := (bind s (fun x => let p := x in k))
  (at level 61, p pattern, s at next level, right associativity)
  : strategy_scope.
Notation "s ;;; k" := (bind s (fun _ => k))
  (at level 61, right associativity) : strategy_scope.
Local Open Scope strategy_scope.

(** [draw(strategy)] inside an [@composite] body. *)
Definition draw {A} (s : Strategy A) : Strategy A := s.

(** [hypothesis.assume]. *)
Definition assume (b : bool) : Strategy unit :=
  fun src => if b then Value (tt, src) else Rejected.

(** [raise e]. *)
Definition throw {A} (e : exn) : Strategy A := fun _ => Raised e.

(** A plain call inside a strategy body: its value, or its exception. *)
Definition lift_call {A} (c : call A) : Strategy A :=
  match c with
  | Returns a => ret a
  | Raises e => throw e
  end.

(** The next choice of the engine; an exhausted sequence answers 0. *)
Definition next_choice : Strategy Z :=
  fun src =>
    match src with
    | [] => Value (0, [])
    | c :: rest => Value (c, rest)
    end.

(** [@composite]: calling the decorated function only records the
    definition in a strategy object; the body runs when the engine draws. *)
Definition composite {A} (definition : Strategy A) : call (Strategy A) :=
  Returns definition.

(** Sampling the result of a strategy-building call. *)
Definition sample {A} (c : call (Strategy A)) : Strategy A :=
  match c with
  | Returns s => s
  | Raises e => throw e
  end.

(** ** Primitive strategies of hypothesis *)

Definition just {A} (a : A) : Strategy A := ret a.

Definition none {A} : Strategy (option A) := ret None.

(** [integers(lo, hi)]: an integer of the closed interval. *)
Definition integers (lo hi : Z) : Strategy Z :=
  if hi <? lo then throw (InvalidArgument "min_value > max_value"%string)
  else c <- next_choice ;; ret (lo + c mod (hi - lo + 1)).

(** [sampled_from(elements)]. *)
Definition sampled_from {A} (elements : list A) : Strategy A :=
  match elements with
  | [] => throw (InvalidArgument "Cannot sample from a length-zero sequence"%string)
  | a :: _ =>
      c <- next_choice ;;
      ret (nth (Z.to_nat (c mod Z.of_nat (List.length elements))) elements a)
  end.

(** [one_of(strategies)]. *)
Definition one_of {A} (strategies : list (Strategy A)) : Strategy A :=
  match strategies with
  | [] => fun _ => Rejected
  | s :: _ =>
      c <- next_choice ;;
      nth (Z.to_nat (c mod Z.of_nat (List.length strategies))) strategies s
  end.

(** [strategy.map(f)]. *)
Definition map_strategy {A B} (f : A -> B) (s : Strategy A) : Strategy B :=
  a <- s ;; ret (f a).

(** ** Configuration domains *)

Inductive dtype : Type :=
| float16 | float32 | float64
| int8 | int16 | int32 | int64
| uint8 | uint16 | uint32 | uint64.

Definition dtype_eqb (a b : dtype) : bool :=
  match a, b with
  | float16, float16 | float32, float32 | float64, float64
  | int8, int8 | int16, int16 | int32, int32 | int64, int64
  | uint8, uint8 | uint16, uint16 | uint32, uint32 | uint64, uint64 => true
  | _, _ => false
  end.

(** Memory layouts ["F"] and ["C"]. *)
Inductive order : Type := F_order | C_order.

(** An input type is [None] or a string. *)
Definition input_type := option string.

Definition _CUML_ARRAY_INPUT_TYPES : list input_type :=
  [Some "numpy"%string; Some "cupy"%string; Some "series"%string; None].

Definition _CUML_ARRAY_DTYPES : list dtype :=
  [float16; float32; float64; int8; int16; int32; int64;
   uint8; uint16; uint32; uint64].

Definition _CUML_ARRAY_ORDERS : list order := [F_order; C_order].

Definition _CUML_ARRAY_SUPPORTED_OUTPUT_DTYPES : list dtype :=
  [float16; float32; float64; int8; int16; int32; int64;
   uint8; uint16; uint32; uint64].

Definition _UNSUPPORTED_CUDF_DTYPES : list dtype :=
  [uint8; uint16; uint32; uint64; float16].

Definition cuml_array_input_types : call (Strategy input_type) :=
  composite (draw (sampled_from _CUML_ARRAY_INPUT_TYPES)).

Definition cuml_array_dtypes : call (Strategy dtype) :=
  composite (draw (sampled_from _CUML_ARRAY_DTYPES)).

Definition cuml_array_orders : call (Strategy order) :=
  composite (draw (sampled_from _CUML_ARRAY_ORDERS)).

(** ** Shapes *)

(** A shape tuple. *)
Definition shape := list Z.

(** The largest number of dimensions numpy supports. *)
Definition NDIM_MAX : Z := 32.

(** [n] sides, each drawn from [integers(lo, hi)]. *)
Fixpoint draw_sides (n : nat) (lo hi : Z) : Strategy shape :=
  match n with
  | O => ret []
  | S n' =>
      d <- integers lo hi ;;
      ds <- draw_sides n' lo hi ;;
      ret (d :: ds)
  end.

(** [hypothesis.extra.numpy.array_shapes], the external shape primitive:
    [lists(integers(min_side, max_side), min_size=min_dims,
    max_size=max_dims).map(tuple)] after its own argument checks, which
    like every hypothesis strategy it performs when first drawn from. *)
Definition array_shapes (min_dims : Z) (max_dims : option Z)
    (min_side : Z) (max_side : option Z) : Strategy shape :=
  let max_dims :=
    match max_dims with
    | None => Z.min (min_dims + 2) NDIM_MAX
    | Some m => m
    end in
  let max_side :=
    match max_side with None => min_side + 5 | Some m => m end in
  if negb ((min_dims <=? NDIM_MAX) && (max_dims <=? NDIM_MAX)) then
    throw (InvalidArgument "dims exceeds the largest supported dimensionality"%string)
  else if negb ((0 <=? min_dims) && (min_dims <=? max_dims)) then
    throw (InvalidArgument "Condition 0 <= min_dims <= max_dims violated"%string)
  else if negb ((0 <=? min_side) && (min_side <=? max_side)) then
    throw (InvalidArgument "Condition 0 <= min_side <= max_side violated"%string)
  else
    n <- integers min_dims max_dims ;;
    draw_sides (Z.to_nat n) min_side max_side.

(** The body of [cuml_array_shapes], run at each draw. *)
Definition cuml_array_shapes_definition (min_dims max_dims min_side : Z)
    (max_side : option Z) : Strategy shape :=
  let max_side := match max_side with None => 10 | Some m => m end in
  if negb ((1 <=? min_dims) && (min_dims <=? max_dims)) then
    throw (ValueError
      "Arguments violate condition 1 <= min_dims <= max_dims."%string)
  else if negb ((0 <? min_side) && (min_side <? max_side)) then
    throw (ValueError
      "Arguments violate condition 0 < min_side < max_side."%string)
  else
    let shapes :=
      array_shapes min_dims (Some max_dims) min_side (Some max_side) in
    draw shapes.

(** [cuml_array_shapes(min_dims=1, max_dims=2, min_side=1, max_side=None)],
    an [@composite] function. *)
Definition cuml_array_shapes (min_dims max_dims min_side : Z)
    (max_side : option Z) : call (Strategy shape) :=
  composite (cuml_array_shapes_definition min_dims max_dims min_side max_side).

(** ** Arrays *)

(** What a [shape] argument can be: a tuple or a bare integer. *)
Inductive py_shape : Type :=
| ShapeTuple (dims : shape)
| ShapeInt (n : Z).

(** The containers [create_cuml_array_input] produces. *)
Inductive container : Type := NumpyArray | CupyArray | CudfSeries.

(** An array-like value, as far as the strategies look at it: only its
    container, element type, shape and layout matter, the content is a
    fixed pattern. *)
Record array : Type := mkArray {
  array_container : container;
  array_dtype : dtype;
  array_shape : shape;
  array_order : order
}.

Definition shape_tuple (s : py_shape) : shape :=
  match s with
  | ShapeTuple dims => dims
  | ShapeInt n => [n]
  end.

(** The array [cp.ones(shape, dtype=dtype, order=order)] returns, when it
    returns. *)
Definition cp_ones (s : py_shape) (dt : dtype) (o : order) : array :=
  mkArray CupyArray dt (shape_tuple s) o.

(** The array [np.array(cp.asnumpy(array), dtype=dtype, order=order)]
    returns, when it returns. *)
Definition np_array_of (a : array) (dt : dtype) (o : order) : array :=
  mkArray NumpyArray dt (array_shape a) o.

(** The series [cudf.Series(array)] returns, when it returns, described
    by the element type, shape and layout of the array it holds. *)
Definition cudf_Series (a : array) : array :=
  mkArray CudfSeries (array_dtype a) (array_shape a) (array_order a).

(** The leading dimension of an array; a 0-d array has none. *)
Definition len_of (a : array) : option Z :=
  match array_shape a with
  | [] => None
  | n :: _ => Some n
  end.

(** [len(a)]. *)
Definition py_len (a : array) : Strategy Z :=
  match len_of a with
  | None => throw (TypeError "len() of unsized object"%string)
  | Some n => ret n
  end.

(** [dtype in dtypes]. *)
Definition dtype_in (dt : dtype) (l : list dtype) : bool :=
  existsb (dtype_eqb dt) l.

(** [input_type == s]. *)
Definition input_type_is (it : input_type) (s : string) : bool :=
  match it with
  | Some t => String.eqb t s
  | None => false
  end.

(** [isinstance(shape, tuple) and len([d for d in shape if d > 1]) > 1]. *)
Definition multidimensional (s : py_shape) : bool :=
  match s with
  | ShapeTuple dims =>
      1 <? Z.of_nat (List.length (filter (fun d => 1 <? d) dims))
  | ShapeInt _ => false
  end.

(** [str(input_type)] inside the f-string of the error message. *)
Definition input_type_str (it : input_type) : string :=
  match it with
  | Some t => t
  | None => "None"%string
  end.

(** [create_cuml_array_input] where every call into the array libraries
    returns. *)
Definition create_cuml_array_input (it : input_type) (dt : dtype)
    (s : py_shape) (o : order) : Strategy array :=
  let multidimensional := multidimensional s in
  assume (negb (input_type_is it "series"
                && (dtype_in dt _UNSUPPORTED_CUDF_DTYPES || multidimensional)))
  ;;;
  let array := cp_ones s dt o in
  if input_type_is it "numpy" then
    ret (np_array_of array dt o)
  else if input_type_is it "series" then
    ret (cudf_Series array)
  else if (match it with None => true | Some _ => false end)
          || input_type_is it "cupy" then
    ret array
  else
    throw (ValueError
      ("Unknown input_type '" ++ input_type_str it ++ ".")%string).

Section ArrayLibraries.

(** The calls [create_cuml_array_input] makes into cupy, numpy and cudf.
    Each returns an array or raises: [cp.ones] raises for a negative
    dimension and when the device allocation fails, and the two
    conversions can fail too. *)
Variable ones : py_shape -> dtype -> order -> call array.
Variable asnumpy_array : array -> dtype -> order -> call array.
Variable Series : array -> call array.

(** [create_cuml_array_input] over these calls: [ones s dt o] is
    [cp.ones(shape, dtype=dtype, order=order)], [asnumpy_array a dt o] is
    [np.array(cp.asnumpy(array), dtype=dtype, order=order)] and [Series a]
    is [cudf.Series(array)]. *)
Definition create_cuml_array_input_on (it : input_type) (dt : dtype)
    (s : py_shape) (o : order) : Strategy array :=
  let multidimensional := multidimensional s in
  assume (negb (input_type_is it "series"
                && (dtype_in dt _UNSUPPORTED_CUDF_DTYPES || multidimensional)))
  ;;;
  array <- lift_call (ones s dt o) ;;
  if input_type_is it "numpy" then
    lift_call (asnumpy_array array dt o)
  else if input_type_is it "series" then
    lift_call (Series array)
  else if (match it with None => true | Some _ => false end)
          || input_type_is it "cupy" then
    ret array
  else
    throw (ValueError
      ("Unknown input_type '" ++ input_type_str it ++ ".")%string).

End ArrayLibraries.

(** [cp.ones] as far as the shape decides it: a negative dimension
    raises. *)
Definition checked_cp_ones (s : py_shape) (dt : dtype) (o : order)
    : call array :=
  if forallb (fun d => 0 <=? d) (shape_tuple s)
  then Returns (cp_ones s dt o)
  else Raises (ValueError "negative dimensions are not allowed").

(** Modelled from the spec: [CumlArray(data=array_input)], the array
    wrapper of [cuml/common/array.py], which is not among the sources; the
    wrapper is identified by the array-like value it holds. *)
Inductive CumlArray : Type := mkCumlArray (data : array).

Definition cuml_arrays_definition (input_types : Strategy input_type)
    (dtypes : Strategy dtype) (shapes : Strategy py_shape)
    (orders : Strategy order) : Strategy CumlArray :=
  it <- draw input_types ;;
  dt <- draw dtypes ;;
  s <- draw shapes ;;
  o <- draw orders ;;
  array_input <- create_cuml_array_input it dt s o ;;
  ret (mkCumlArray array_input).

Definition cuml_arrays (input_types : Strategy input_type)
    (dtypes : Strategy dtype) (shapes : Strategy py_shape)
    (orders : Strategy order) : call (Strategy CumlArray) :=
  composite (cuml_arrays_definition input_types dtypes shapes orders).

(** The default arguments of [cuml_arrays]. *)
Definition default_input_types : Strategy input_type :=
  sample cuml_array_input_types.
Definition default_dtypes : Strategy dtype := sample cuml_array_dtypes.
Definition default_shapes : Strategy py_shape :=
  map_strategy ShapeTuple (array_shapes 1 (Some 2) 1 None).
Definition default_orders : Strategy order := sample cuml_array_orders.

(** ** Datasets *)

(** [floating_dtypes()]. *)
Definition floating_dtypes : Strategy dtype :=
  sampled_from [float16; float32; float64].

(** [hypothesis.extra.numpy.arrays(dtype=dtypes, shape=shape)]: refuses a
    negative side, draws the dtype and fills an array of that shape. *)
Definition arrays (dtypes : Strategy dtype) (s : shape) : Strategy array :=
  if negb (forallb (fun d => 0 <=? d) s) then
    throw (InvalidArgument "Array shape must be non-negative integers"%string)
  else
    dt <- draw dtypes ;;
    ret (mkArray NumpyArray dt s C_order).

Definition standard_datasets_definition (dtypes : Strategy dtype)
    (n_samples n_features n_targets : Strategy Z) : Strategy (array * array) :=
  xs <- draw n_samples ;;
  ys <- draw n_features ;;
  let X := arrays dtypes [xs; ys] in
  nt <- draw n_targets ;;
  let y := arrays dtypes [xs; nt] in
  X_ <- draw X ;;
  y_ <- draw y ;;
  ret (X_, y_).

(** [standard_datasets(dtypes=floating_dtypes(),
    n_samples=integers(0, 200), n_features=integers(0, 200), *,
    n_targets=just(1))]. *)
Definition standard_datasets (dtypes : Strategy dtype)
    (n_samples n_features n_targets : Strategy Z)
    : call (Strategy (array * array)) :=
  composite (standard_datasets_definition dtypes n_samples n_features n_targets).

(** ** Train/test splits *)

(** A drawn test size: a Python [int], a Python [float] (a finite float,
    idealised as the rational it denotes), [None], or a numpy integer,
    which is not an instance of [int]. *)
Inductive test_size : Type :=
| TsInt (k : Z)
| TsFloat (q : Q)
| TsNone
| TsNpInt (k : Z).

(** [int(x)] on a float: truncation towards zero. *)
Definition py_int (q : Q) : Z :=
  if Qle_bool 0 q then Qfloor q else Qceiling q.

Definition split : Type := (array * array * array * array)%type.

(** The checks [split_datasets] applies to the drawn test size. *)
Definition check_test_size (n : Z) (ts : test_size) : Strategy unit :=
  match ts with
  | TsFloat q =>
      assume (0 <? py_int (inject_Z n * q)) ;;;
      assume (0 <? py_int (inject_Z n * (1 - q)))
  | TsInt k => assume ((1 <? k) && (k <? n))
  | TsNone | TsNpInt _ => ret tt
  end.

Section SplitDatasets.

(** [sklearn.model_selection.train_test_split(X, y, test_size=...)], the
    external partitioning primitive. *)
Variable train_test_split : array -> array -> test_size -> call split.

Definition split_datasets_definition (datasets : Strategy (array * array))
    (test_sizes : option (Strategy test_size)) : Strategy split :=
  ' (X, y) <- draw datasets ;;
  n <- py_len X ;;
  assume (1 <? n) ;;;
  let test_sizes :=
    match test_sizes with
    | None => map_strategy TsInt (integers 1 (Z.max 1 (n - 1)))
    | Some s => s
    end in
  test_size <- draw test_sizes ;;
  check_test_size n test_size ;;;
  lift_call (train_test_split X y test_size).

(** [split_datasets(datasets, test_sizes=None)]. *)
Definition split_datasets (datasets : Strategy (array * array))
    (test_sizes : option (Strategy test_size)) : call (Strategy split) :=
  composite (split_datasets_definition datasets test_sizes).

End SplitDatasets.

(** ** Regression datasets *)

(** The keyword arguments of [sklearn.datasets.make_regression]. *)
Record make_regression_kwargs : Type := mkKwargs {
  kw_n_samples : Z;
  kw_n_features : Z;
  kw_n_informative : Z;
  kw_n_targets : Z;
  kw_bias : Q;
  kw_effective_rank : option Z;
  kw_tail_strength : Q;
  kw_noise : Q;
  kw_shuffle : bool;
  kw_random_state : option Z
}.

(** Binary64 arithmetic on the magnitudes [0.1 * n_features_] involves.
    [round53 m] rounds the natural number [m] to 53 significant bits, to
    the nearest with ties to the even significand: the rounding of a
    binary64 significand, away from the ends of the exponent range. *)
Definition round53 (m : Z) : Z :=
  let shift := Z.log2 m + 1 - 53 in
  if shift <=? 0 then m
  else
    let q := Z.shiftr m shift in
    let rem := m - Z.shiftl q shift in
    let half := Z.shiftl 1 (shift - 1) in
    if (half <? rem) || ((rem =? half) && Z.odd q)
    then Z.shiftl (q + 1) shift
    else Z.shiftl q shift.

(** The float literal [0.1] is the binary64 number
    [3602879701896397 / 2 ** 55]. *)
Definition tenth_significand : Z := 3602879701896397.

(** [int(0.1 * n)] for a Python [int] [n].  The multiplication converts [n]
    to a float, rounding it and raising [OverflowError] when the rounded
    magnitude reaches [2 ** 1024]; the product of that float and [0.1] is
    rounded again; [int] truncates the product towards zero.  The product
    is at least [0.1] in magnitude (or zero) and below [2 ** 1021], so it
    neither underflows nor overflows. *)
Definition int_of_tenth (n : Z) : call Z :=
  let f := round53 (Z.abs n) in
  if 2 ^ 1024 <=? f
  then Raises (OverflowError "int too large to convert to float")
  else Returns (Z.sgn n * (round53 (f * tenth_significand) / 2 ^ 55)).

(** [max(min(n_features_, 1), int(0.1 * n_features_))]. *)
Definition default_n_informative (n_features_ : Z) : call Z :=
  match int_of_tenth n_features_ with
  | Returns t => Returns (Z.max (Z.min n_features_ 1) t)
  | Raises e => Raises e
  end.

(** [a.astype(dtype_)]. *)
Definition astype (a : array) (dt : dtype) : array :=
  mkArray (array_container a) dt (array_shape a) (array_order a).

(** The arguments [standard_regression_datasets] hands to
    [make_regression], drawn in the order of the call. *)
Definition standard_regression_datasets_kwargs
    (n_samples n_features : Strategy Z) (n_informative : option (Strategy Z))
    (n_targets : Strategy Z) (bias : Strategy Q)
    (effective_rank : Strategy (option Z)) (tail_strength noise : Strategy Q)
    (shuffle : Strategy bool) (random_state : option Z)
    : Strategy make_regression_kwargs :=
  n_features_ <- draw n_features ;;
  n_informative <-
    match n_informative with
    | None => d <- lift_call (default_n_informative n_features_) ;;
              ret (just d)
    | Some s => ret s
    end ;;
  ns <- draw n_samples ;;
  ni <- draw n_informative ;;
  nt <- draw n_targets ;;
  b <- draw bias ;;
  er <- draw effective_rank ;;
  tl <- draw tail_strength ;;
  nz <- draw noise ;;
  sh <- draw shuffle ;;
  ret (mkKwargs ns n_features_ ni nt b er tl nz sh random_state).

Section RegressionDatasets.

(** [sklearn.datasets.make_regression], the external synthesizer. *)
Variable make_regression : make_regression_kwargs -> call (array * array).

Definition standard_regression_datasets_definition (dtypes : Strategy dtype)
    (n_samples n_features : Strategy Z) (n_informative : option (Strategy Z))
    (n_targets : Strategy Z) (bias : Strategy Q)
    (effective_rank : Strategy (option Z))
    (tail_strength noise : Strategy Q)
    (shuffle : Strategy bool) (random_state : option Z)
    : Strategy (array * array) :=
  kwargs <- standard_regression_datasets_kwargs n_samples n_features
              n_informative n_targets bias effective_rank tail_strength
              noise shuffle random_state ;;
  ' (X, y) <- lift_call (make_regression kwargs) ;;
  dtype_ <- draw dtypes ;;
  ret (astype X dtype_, astype y dtype_).

Definition standard_regression_datasets (dtypes : Strategy dtype)
    (n_samples n_features : Strategy Z) (n_informative : option (Strategy Z))
    (n_targets : Strategy Z) (bias : Strategy Q)
    (effective_rank : Strategy (option Z))
    (tail_strength noise : Strategy Q)
    (shuffle : Strategy bool) (random_state : option Z)
    : call (Strategy (array * array)) :=
  composite (standard_regression_datasets_definition dtypes n_samples
               n_features n_informative n_targets bias effective_rank
               tail_strength noise shuffle random_state).

End RegressionDatasets.

(** The default of the specification's wording: Python's [round], to the
    nearest integer with ties to the even one. *)
Definition py_round (q : Q) : Z :=
  let f := Qfloor q in
  match (q - inject_Z f ?= 1 # 2)%Q with
  | Lt => f
  | Gt => f + 1
  | Eq => if Z.even f then f else f + 1
  end.

(** [max(1, round(0.1 * n_features))], and 0 for no features, as the
    specification words the default. *)
Definition spec_n_informative (n_features_ : Z) : Z :=
  if n_features_ =? 0 then 0
  else Z.max 1 (py_round ((1 # 10) * inject_Z n_features_)).

(** ** Import placeholders *)

Module ImportUtils.

(** An imported module object. *)
Inductive py_module : Type := Module_ (name : string).

(** An instance of [MissingImport]: its instance dictionary holds [_msg]
    and nothing else. *)
Record MissingImport : Type := mkMissingImport { _msg : string }.

(** The message a placeholder for [symbol] is to carry. *)
Definition scoped (symbol : string) (msg : option string) : string :=
  match msg with
  | None => (symbol ++ " could not be imported")%string
  | Some m => m
  end.

(** [MissingImport.__init__(self, symbol, msg=None)]. *)
Definition MissingImport__init__ (symbol : string) (msg : option string)
    : MissingImport :=
  match msg with
  | None => mkMissingImport (symbol ++ " could not be imported")%string
  | Some m => mkMissingImport m
  end.

(** What an attribute lookup can return. *)
Inductive attr_value : Type :=
| AttrStr (s : string)
| AttrOfType (name : string).

(** [MissingImport.__getattr__(self, name)]. *)
Definition MissingImport__getattr__ (self : MissingImport) (name : string)
    : call attr_value :=
  Raises (UnavailableImportError (_msg self)).

(** [MissingImport.__call__(self, *args, **kwargs)]. *)
Definition MissingImport__call__ {Args : Type} (self : MissingImport)
    (args : Args) : call attr_value :=
  Raises (UnavailableImportError (_msg self)).

(** The names the class body of [MissingImport] binds. *)
Definition MissingImport_class_dict : list string :=
  ["__doc__"; "__init__"; "__getattr__"; "__call__"]%string.

Definition name_in (name : string) (l : list string) : bool :=
  existsb (String.eqb name) l.

Section AttributeAccess.

(** The names every object inherits from [object] and its type. *)
Variable object_attrs : string -> bool.

(** The expression [self.name]: the instance dictionary and the type
    are searched first, and [__getattr__] is the fallback for a name
    that neither has. *)
Definition getattr (self : MissingImport) (name : string)
    : call attr_value :=
  if String.eqb name "_msg" then Returns (AttrStr (_msg self))
  else if name_in name MissingImport_class_dict || object_attrs name then
    Returns (AttrOfType name)
  else MissingImport__getattr__ self name.

End AttributeAccess.

(** What [safe_import] returns. *)
Inductive imported : Type :=
| Imported (m : py_module)
| Placeholder (p : MissingImport).

Section SafeImport.

(** [importlib.import_module] in the running interpreter. *)
Variable import_module : string -> call py_module.

(** [try: return import_module(module)
     except Exception: return MissingImport(module, msg=msg)]. *)
Definition safe_import (module : string) (msg : option string)
    : call imported :=
  match import_module module with
  | Returns m => Returns (Imported m)
  | Raises e =>
      if is_Exception e then
        Returns (Placeholder (MissingImport__init__ module msg))
      else Raises e
  end.

End SafeImport.

(** [isinstance(e, ImportError)], what [except ImportError] catches. *)
Definition is_ImportError (e : exn) : bool :=
  match e with
  | ImportError _ => true
  | _ => false
  end.

(** [str(ex)]. *)
Definition exn_str (e : exn) : string :=
  match e with
  | ValueError m | InvalidArgument m | TypeError m | ImportError m
  | UnavailableImportError m | OverflowError m | UserWarning m => m
  | KeyboardInterrupt | SystemExit => ""%string
  end.

(** What [safe_import_from] returns: the symbol or a placeholder. *)
Inductive imported_symbol (symbol_value : Type) : Type :=
| ImportedSymbol (v : symbol_value)
| SymbolPlaceholder (p : MissingImport).
Arguments ImportedSymbol {symbol_value} v.
Arguments SymbolPlaceholder {symbol_value} p.

Section Imports.

(** The objects modules export. *)
Variable symbol_value : Type.

(** [importlib.import_module] and [getattr(module, symbol)] in the running
    interpreter, and the build flag of [cuml.common.device_support]. *)
Variable import_module : string -> call py_module.
Variable module_getattr : py_module -> string -> call symbol_value.
Variable BUILT_WITH_CUDA : bool.

(** [imported_module = importlib.import_module(module);
     getattr(imported_module, symbol)]. *)
Definition import_symbol (module symbol : string) : call symbol_value :=
  match import_module module with
  | Returns imported_module => module_getattr imported_module symbol
  | Raises e => Raises e
  end.

Definition safe_import_from (module symbol : string) (msg : option string)
    : call (imported_symbol symbol_value) :=
  match import_symbol module symbol with
  | Returns v => Returns (ImportedSymbol v)
  | Raises e =>
      if is_Exception e then
        Returns (SymbolPlaceholder
                   (MissingImport__init__ (module ++ "." ++ symbol)%string msg))
      else Raises e
  end.

(** [importlib.import_module(module)] as the value a function returns. *)
Definition plain_import (module : string) : call imported :=
  match import_module module with
  | Returns m => Returns (Imported m)
  | Raises e => Raises e
  end.

Definition plain_import_from (module symbol : string)
    : call (imported_symbol symbol_value) :=
  match import_symbol module symbol with
  | Returns v => Returns (ImportedSymbol v)
  | Raises e => Raises e
  end.

Definition gpu_only_import {Self : Type} (self : Self) (module : string)
    : call imported :=
  if BUILT_WITH_CUDA then plain_import module
  else
    safe_import import_module module
      (Some (module ++ " is not installed in CPU-only installations")%string).

Definition gpu_only_import_from {Self : Type} (self : Self)
    (module symbol : string) : call (imported_symbol symbol_value) :=
  if BUILT_WITH_CUDA then plain_import_from module symbol
  else
    safe_import_from module symbol
      (Some (module ++ "." ++ symbol
             ++ " is not available in CPU-only installations")%string).

Definition cpu_only_import {Self : Type} (self : Self) (module : string)
    : call imported :=
  if BUILT_WITH_CUDA then
    safe_import import_module module
      (Some (module ++ " is not installed in GPU-only installations")%string)
  else plain_import module.

Definition cpu_only_import_from {Self : Type} (self : Self)
    (module symbol : string) : call (imported_symbol symbol_value) :=
  if BUILT_WITH_CUDA then
    safe_import_from module symbol
      (Some (module ++ "." ++ symbol
             ++ " is not available in GPU-only installations")%string)
  else plain_import_from module symbol.

(** A call with positional arguments only, of a function [fname]
    declared with the two parameters [(p1, p2)]: Python binds the
    arguments in order and raises [TypeError] on any other count. *)
Definition call_positional2 {A R : Type} (fname p1 p2 : string)
    (f : A -> A -> call R) (args : list A) : call R :=
  match args with
  | [] =>
      Raises (TypeError
        (fname ++ "() missing 2 required positional arguments: '" ++ p1
         ++ "' and '" ++ p2 ++ "'")%string)
  | [_] =>
      Raises (TypeError
        (fname ++ "() missing 1 required positional argument: '" ++ p2
         ++ "'")%string)
  | [a1; a2] => f a1 a2
  | _ =>
      Raises (TypeError
        (fname ++ "() takes 2 positional arguments but "
         ++ DecimalString.NilEmpty.string_of_uint
              (Nat.to_uint (List.length args))
         ++ " were given")%string)
  end.

(** The module-level statement [numba = gpu_only_import('numba')]. *)
Definition numba : call imported :=
  call_positional2 "gpu_only_import" "self" "module"
    (fun self module => gpu_only_import self module) ["numba"%string].

End Imports.

Arguments import_symbol {symbol_value}.
Arguments safe_import_from {symbol_value}.
Arguments plain_import_from {symbol_value}.
Arguments gpu_only_import_from {symbol_value} import_module module_getattr
  BUILT_WITH_CUDA {Self} self module symbol.
Arguments cpu_only_import_from {symbol_value} import_module module_getattr
  BUILT_WITH_CUDA {Self} self module symbol.

(** Sequencing of calls: the first exception ends the sequence. *)
Definition call_bind {A B : Type} (c : call A) (k : A -> call B) : call B :=
  match c with
  | Returns a => k a
  | Raises e => Raises e
  end.

(** [try: body except ImportError: handler]. *)
Definition try_except_ImportError {A : Type} (body handler : call A)
    : call A :=
  match body with
  | Returns a => Returns a
  | Raises e => if is_ImportError e then handler else Raises e
  end.

(** [str(v)] of an attribute value. *)
Definition attr_str (v : attr_value) : string :=
  match v with
  | AttrStr s => s
  | AttrOfType name => name
  end.

Section Availability.

Variable import_module : string -> call py_module.

(** The statement [from module import name]. *)
Variable import_from : string -> string -> call unit.

(** [str(module.__version__)] and [LooseVersion(a) >= LooseVersion(b)]. *)
Variable version_of : py_module -> call string.
Variable LooseVersion_ge : string -> string -> call bool.

(** [warnings.warn(message)]: it returns once the warning is issued, and
    raises when a warning filter turns the warning into an error. *)
Variable warnings_warn : string -> call unit.

(** A sequence of [import] statements. *)
Fixpoint imports (names : list string) : call unit :=
  match names with
  | [] => Returns tt
  | name :: rest => call_bind (import_module name) (fun _ => imports rest)
  end.

Definition has_dask : call bool :=
  try_except_ImportError
    (call_bind (imports ["dask"; "dask.distributed"; "dask.dataframe"]%string)
       (fun _ => Returns true))
    (Returns false).

Definition has_dask_cudf : call bool :=
  try_except_ImportError
    (call_bind (imports ["dask_cudf"%string]) (fun _ => Returns true))
    (Returns false).

Definition has_dask_sql : call bool :=
  try_except_ImportError
    (call_bind (imports ["dask_sql"%string]) (fun _ => Returns true))
    (Returns false).

Definition has_cupy : call bool :=
  try_except_ImportError
    (call_bind (imports ["cupy"%string]) (fun _ => Returns true))
    (Returns false).

Definition has_ucp : call bool :=
  try_except_ImportError
    (call_bind (imports ["ucp"%string]) (fun _ => Returns true))
    (Returns false).

Definition has_umap : call bool :=
  try_except_ImportError
    (call_bind (imports ["umap"%string]) (fun _ => Returns true))
    (Returns false).

Definition has_lightgbm : call bool :=
  try_except_ImportError
    (call_bind (imports ["lightgbm"%string]) (fun _ => Returns true))
    (Returns false).

Definition has_pytest_benchmark : call bool :=
  try_except_ImportError
    (call_bind (imports ["pytest_benchmark"%string]) (fun _ => Returns true))
    (Returns false).

Definition has_sklearn : call bool :=
  try_except_ImportError
    (call_bind (imports ["sklearn"%string]) (fun _ => Returns true))
    (Returns false).

(** The text [has_xgboost] warns with. *)
Definition xgboost_warning (ex : exn) : string :=
  ("The XGBoost library was found but raised an exception during "
   ++ "import. Importing xgboost will be skipped. "
   ++ "Error message:" ++ String (Ascii.ascii_of_nat 10) "" ++ exn_str ex)%string.

(** [has_xgboost()].  The second handler calls [warnings.warn] before it
    returns, and an exception of that call leaves the function. *)
Definition has_xgboost : call bool :=
  match import_module "xgboost" with
  | Returns _ => Returns true
  | Raises e =>
      if is_ImportError e then Returns false
      else if is_Exception e then
        call_bind (warnings_warn (xgboost_warning e))
          (fun _ => Returns false)
      else Raises e
  end.

(** [has_scipy(raise_if_unavailable=False)]. *)
Definition has_scipy (raise_if_unavailable : bool) : call bool :=
  try_except_ImportError
    (call_bind (imports ["scipy"%string]) (fun _ => Returns true))
    (if negb raise_if_unavailable then Returns false
     else Raises (ImportError "Scipy is not available.")).

(** [has_hdbscan_plots(raise_if_unavailable=True)]. *)
Definition has_hdbscan_plots (raise_if_unavailable : bool) : call bool :=
  try_except_ImportError
    (call_bind (import_from "hdbscan.plots" "SingleLinkageTree")
       (fun _ => Returns true))
    (if raise_if_unavailable then
       Raises (ImportError "hdbscan must be installed to use plots.")
     else Returns false).

Definition check_min_dask_version (version : string) : call bool :=
  try_except_ImportError
    (call_bind (import_module "dask") (fun dask =>
     call_bind (version_of dask) (fun v => LooseVersion_ge v version)))
    (Returns false).

(** [check_min_numba_version(version)], given the module-level [numba]. *)
Definition check_min_numba_version (numba : imported) (version : string)
    : call bool :=
  match numba with
  | Imported m => call_bind (version_of m) (fun v => LooseVersion_ge v version)
  | Placeholder p =>
      call_bind (MissingImport__getattr__ p "__version__")
        (fun v => LooseVersion_ge (attr_str v) version)
  end.

Definition check_min_cupy_version (version : string) : call bool :=
  call_bind has_cupy (fun available =>
    if available then
      call_bind (import_module "cupy") (fun cupy =>
      call_bind (version_of cupy) (fun v => LooseVersion_ge v version))
    else Returns false).

(** [has_shap(min_version="0.37")]. *)
Definition has_shap (min_version : option string) : call bool :=
  try_except_ImportError
    (call_bind (import_module "shap") (fun shap =>
       match min_version with
       | None => Returns true
       | Some mv =>
           call_bind (version_of shap) (fun v => LooseVersion_ge v mv)
       end))
    (Returns false).

(** [has_daskglm(min_version=None)]. *)
Definition has_daskglm (min_version : option string) : call bool :=
  try_except_ImportError
    (call_bind (import_module "dask_glm") (fun dask_glm =>
       match min_version with
       | None => Returns true
       | Some mv =>
           call_bind (version_of dask_glm) (fun v => LooseVersion_ge v mv)
       end))
    (Returns false).

End Availability.

End ImportUtils.

(** The number of test rows [train_test_split] documents for a test size
    on [n] rows: the count itself, the ceiling of the fraction, and a
    quarter of the rows when no test size is given. *)
Definition test_rows (n : Z) (ts : test_size) : Z :=
  match ts with
  | TsInt k | TsNpInt k => k
  | TsFloat q => Qceiling (q * inject_Z n)
  | TsNone => Qceiling ((1 # 4) * inject_Z n)
  end.

(** A partitioner with the sizes and the argument checks of
    [train_test_split], on which the split properties are exercised: the
    test part has [test_rows] rows, the train part the others, and a split
    that would leave either part empty is refused. *)
Definition sized_train_test_split (X y : array) (ts : test_size)
    : call split :=
  match array_shape X, array_shape y with
  | n :: fx, m :: fy =>
      if negb (n =? m) then
        Raises (ValueError
          "Found input variables with inconsistent numbers of samples"%string)
      else
        let n_test := test_rows n ts in
        if (0 <? n_test) && (n_test <? n) then
          Returns
            (mkArray (array_container X) (array_dtype X)
               ((n - n_test) :: fx) (array_order X),
             mkArray (array_container X) (array_dtype X)
               (n_test :: fx) (array_order X),
             mkArray (array_container y) (array_dtype y)
               ((n - n_test) :: fy) (array_order y),
             mkArray (array_container y) (array_dtype y)
               (n_test :: fy) (array_order y))
        else
          Raises (ValueError
            "test_size should be smaller than the number of samples"%string)
  | _, _ => Raises (TypeError "Singleton array cannot be considered a valid collection"%string)
  end.

(** The strategy [split_datasets] draws the test size from, on [n] rows:
    the one supplied, or the default over [1, max(1, n - 1)]. *)
Definition sizes (test_sizes : option (Strategy test_size)) (n : Z)
    : Strategy test_size :=
  match test_sizes with
  | None => map_strategy TsInt (integers 1 (Z.max 1 (n - 1)))
  | Some s => s
  end.

(** The value of an optional integer argument. *)
Definition or_default (d : Z) (o : option Z) : Z :=
  match o with None => d | Some m => m end.

(** ** Combined datasets *)

(** A dataset: the pair [(X, y)]. *)
Definition dataset : Type := (array * array)%type.

(** A datasets strategy function, called with [(dtypes, n_samples,
    n_features)]. *)
Definition datasets_function : Type :=
  Strategy dtype -> Strategy Z -> Strategy Z -> call (Strategy dataset).

(** The generator expression [(dataset(dtypes, n_samples, n_features) for
    dataset in datasets)], consumed by [one_of]: the functions are called
    in order and the first exception ends the evaluation. *)
Fixpoint datasets_strategies (datasets : list datasets_function)
    (dtypes : Strategy dtype) (n_samples n_features : Strategy Z)
    : call (list (Strategy dataset)) :=
  match datasets with
  | [] => Returns []
  | dataset :: rest =>
      match dataset dtypes n_samples n_features with
      | Raises e => Raises e
      | Returns s =>
          match datasets_strategies rest dtypes n_samples n_features with
          | Raises e => Raises e
          | Returns l => Returns (s :: l)
          end
      end
  end.

(** The exception class test of an [except TypeError] clause. *)
Definition is_TypeError (e : exn) : bool :=
  match e with
  | TypeError _ => true
  | _ => false
  end.

(** The message of the [InvalidArgument] that [one_of] raises for
    arguments that are no strategies.  The text quotes the [repr] of the
    arguments, here a generator object, which is left out. *)
Definition one_of_non_strategies : string :=
  ("st.one_of() is used to combine strategies, but all of the "
   ++ "arguments were of other types.")%string.

(** [one_of(generator)], for a generator expression as its one argument.
    hypothesis collects it with [tuple(...)] inside a [try] whose
    [except TypeError] clause passes: a [TypeError] raised while the
    generator runs is swallowed, the argument stays the generator, which
    is no strategy, and [one_of] raises [InvalidArgument].  Any other
    exception of the generator propagates. *)
Definition one_of_generated {A} (strategies : call (list (Strategy A)))
    : Strategy A :=
  match strategies with
  | Returns l => one_of l
  | Raises e =>
      if is_TypeError e then throw (InvalidArgument one_of_non_strategies)
      else throw e
  end.

(** The body of the inner [strategy] of [combined_datasets_strategy]. *)
Definition combined_strategy_definition (datasets : list datasets_function)
    (dtypes : Strategy dtype) (n_samples n_features : Strategy Z)
    : Strategy dataset :=
  draw (one_of_generated
          (datasets_strategies datasets dtypes n_samples n_features)).

(** A strategy function with its descriptive attributes. *)
Record strategy_function : Type := mkStrategyFunction {
  fn_name : string;
  fn_doc : string;
  fn_call : datasets_function
}.

(** [combined_datasets_strategy] of the dataset functions [datasets], with
    the keyword arguments [name=None] and [doc=None]. *)
Definition combined_datasets_strategy (datasets : list datasets_function)
    (name doc : option string) : strategy_function :=
  mkStrategyFunction
    (match name with None => "datasets"%string | Some n => n end)
    (match doc with
     | None =>
         "Datasets strategy composed of multiple datasets strategies."%string
     | Some d => d
     end)
    (fun dtypes n_samples n_features =>
       composite
         (combined_strategy_definition datasets dtypes n_samples n_features)).

Section RegressionDatasetsStrategy.

Variable make_regression : make_regression_kwargs -> call (array * array).

(** [standard_datasets] called with three positional arguments. *)
Definition standard_datasets_function : datasets_function :=
  fun dtypes n_samples n_features =>
    standard_datasets dtypes n_samples n_features (just 1).

(** [standard_regression_datasets] called with three positional
    arguments, its keyword arguments at their defaults. *)
Definition standard_regression_datasets_function : datasets_function :=
  fun dtypes n_samples n_features =>
    standard_regression_datasets make_regression dtypes n_samples n_features
      None (just 1) (just 0%Q) none (just (1 # 2)%Q) (just 0%Q) (just true)
      None.

Definition regression_datasets : strategy_function :=
  combined_datasets_strategy
    [standard_datasets_function; standard_regression_datasets_function]
    (Some "regression_datasets"%string)
    (Some "
    Returns strategy for the generation of regression problem datasets.

    Drawn from the standard_datasets and the standard_regression_datasets
    strategies.
    "%string).

End RegressionDatasetsStrategy.

(** A synthesizer with the shapes of [make_regression], on which the
    regression properties are exercised: [X] of shape [(n_samples,
    n_features)], [y] of shape [(n_samples,)] for one target and
    [(n_samples, n_targets)] otherwise. *)
Definition shaped_make_regression (kw : make_regression_kwargs)
    : call (array * array) :=
  if (kw_n_samples kw <? 0) || (kw_n_features kw <? 0)
     || (kw_n_targets kw <? 0) then
    Raises (ValueError "negative dimensions are not allowed"%string)
  else
    Returns
      (mkArray NumpyArray float64 [kw_n_samples kw; kw_n_features kw] C_order,
       mkArray NumpyArray float64
         (if kw_n_targets kw =? 1 then [kw_n_samples kw]
          else [kw_n_samples kw; kw_n_targets kw]) C_order).

(** ** The package module *)

Module CumlInit.

(** How an attribute access that falls back to the module's
    [__getattr__] ends: with the settings, with [AttributeError], or with
    an exception of the [GlobalSettings] constructor. *)
Inductive getattr_outcome (settings : Type) : Type :=
| Found (s : settings)
| AttributeError (msg : string)
| ConstructorRaised (e : exn).
Arguments Found {settings} s.
Arguments AttributeError {settings} msg.
Arguments ConstructorRaised {settings} e.

Section ModuleGetattr.

Variable settings : Type.

(** The call [GlobalSettings()]. *)
Variable GlobalSettings : call settings.

(** [__getattr__(name)] of the package, on the state of
    [_global_settings_data]: its [settings] attribute, absent until it is
    first assigned. *)
Definition module__getattr__ (name : string) (data : option settings)
    : getattr_outcome settings * option settings :=
  if String.eqb name "global_settings" then
    match data with
    | Some s => (Found s, data)
    | None =>
        match GlobalSettings with
        | Returns s => (Found s, Some s)
        | Raises e => (ConstructorRaised e, None)
        end
    end
  else
    (AttributeError ("module cuml has no attribute " ++ name)%string, data).

End ModuleGetattr.

End CumlInit.

(** * Properties *)

(** ** The sampling monad *)

Lemma bind_Value_inv {A B} (s : Strategy A) (k : A -> Strategy B) src r :
  bind s k src = Value r ->
  exists a src1, s src = Value (a, src1) /\ k a src1 = Value r.
Proof.
  unfold bind. destruct (s src) as [[a src1] | | e]; try discriminate.
  intros H. exists a, src1. split; [reflexivity | exact H].
Qed.

Lemma bind_Value {A B} (s : Strategy A) (k : A -> Strategy B) src a src1 :
  s src = Value (a, src1) -> bind s k src = k a src1.
Proof. unfold bind. intros ->. reflexivity. Qed.


Lemma next_choice_total src :
  exists c src1, next_choice src = Value (c, src1).
Proof. destruct src as [|c rest]; simpl; eauto. Qed.

Ltac bind_inv H :=
  let a := fresh "a" in
  let s := fresh "src" in
  let Ha := fresh "Hdraw" in
  apply bind_Value_inv in H; destruct H as (a & s & Ha & H).

(** ** Integers and shapes *)

Lemma integers_range lo hi src v src1 :
  integers lo hi src = Value (v, src1) -> lo <= v <= hi.
Proof.
  unfold integers. destruct (hi <? lo) eqn:E; [discriminate|].
  apply Z.ltb_ge in E. intros H. bind_inv H.
  injection H as <- _.
  assert (0 <= a mod (hi - lo + 1) < hi - lo + 1)
    by (apply Z.mod_pos_bound; lia).
  lia.
Qed.

Lemma integers_total lo hi src :
  lo <= hi -> exists v src1, integers lo hi src = Value (v, src1).
Proof.
  intros Hle. unfold integers.
  destruct (hi <? lo) eqn:E; [apply Z.ltb_lt in E; lia|].
  destruct (next_choice_total src) as (c & src1 & Hc).
  rewrite (bind_Value _ _ _ _ _ Hc). unfold ret. eauto.
Qed.

Lemma draw_sides_spec n lo hi src s src1 :
  draw_sides n lo hi src = Value (s, src1) ->
  List.length s = n /\ Forall (fun d => lo <= d <= hi) s.
Proof.
  revert src s src1. induction n as [|n IH]; intros src s src1 H; simpl in H.
  - injection H as <- _. split; [reflexivity | constructor].
  - bind_inv H. bind_inv H. injection H as <- _.
    apply integers_range in Hdraw.
    destruct (IH _ _ _ Hdraw0) as [Hlen Hall].
    split; [simpl; congruence | constructor; assumption].
Qed.

Lemma draw_sides_total n lo hi src :
  lo <= hi -> exists s src1, draw_sides n lo hi src = Value (s, src1).
Proof.
  intros Hle. revert src. induction n as [|n IH]; intros src; simpl.
  - unfold ret. eauto.
  - destruct (integers_total lo hi src Hle) as (d & src1 & Hd).
    rewrite (bind_Value _ _ _ _ _ Hd).
    destruct (IH src1) as (ds & src2 & Hds).
    rewrite (bind_Value _ _ _ _ _ Hds). unfold ret. eauto.
Qed.

Lemma array_shapes_spec min_dims max_dims min_side max_side src s src1 :
  array_shapes min_dims (Some max_dims) min_side (Some max_side) src
    = Value (s, src1) ->
  min_dims <= Z.of_nat (List.length s) <= max_dims
  /\ Forall (fun d => min_side <= d <= max_side) s.
Proof.
  unfold array_shapes.
  destruct (negb ((min_dims <=? NDIM_MAX) && _)); [discriminate|].
  destruct ((0 <=? min_dims) && (min_dims <=? max_dims)) eqn:E;
    [|discriminate].
  destruct (negb ((0 <=? min_side) && _)); [discriminate|].
  apply andb_true_iff in E. destruct E as [E0 _].
  apply Z.leb_le in E0.
  intros H. bind_inv H.
  apply integers_range in Hdraw.
  apply draw_sides_spec in H. destruct H as [Hlen Hall].
  split; [rewrite Hlen, Z2Nat.id; lia | exact Hall].
Qed.

Lemma array_shapes_total min_dims max_dims min_side max_side src :
  0 <= min_dims <= max_dims -> max_dims <= NDIM_MAX ->
  0 <= min_side <= max_side ->
  exists s src1,
    array_shapes min_dims (Some max_dims) min_side (Some max_side) src
      = Value (s, src1).
Proof.
  intros Hd Hmax Hs. unfold array_shapes.
  replace (min_dims <=? NDIM_MAX) with true by (symmetry; apply Z.leb_le; lia).
  replace (max_dims <=? NDIM_MAX) with true by (symmetry; apply Z.leb_le; lia).
  replace (0 <=? min_dims) with true by (symmetry; apply Z.leb_le; lia).
  replace (min_dims <=? max_dims) with true by (symmetry; apply Z.leb_le; lia).
  replace (0 <=? min_side) with true by (symmetry; apply Z.leb_le; lia).
  replace (min_side <=? max_side) with true by (symmetry; apply Z.leb_le; lia).
  simpl.
  destruct (integers_total min_dims max_dims src) as (n & src1 & Hn); [lia|].
  rewrite (bind_Value _ _ _ _ _ Hn).
  apply draw_sides_total. lia.
Qed.

(** ** Shape generator *)

Lemma cuml_array_shapes_sample min_dims max_dims min_side max_side :
  sample (cuml_array_shapes min_dims max_dims min_side max_side)
  = cuml_array_shapes_definition min_dims max_dims min_side max_side.
Proof. reflexivity. Qed.

Lemma cuml_array_shapes_valid min_dims max_dims min_side max_side :
  1 <= min_dims <= max_dims ->
  0 < min_side < or_default 10 max_side ->
  cuml_array_shapes_definition min_dims max_dims min_side max_side
  = array_shapes min_dims (Some max_dims) min_side
      (Some (or_default 10 max_side)).
Proof.
  intros Hd Hs. unfold cuml_array_shapes_definition, draw.
  fold (or_default 10 max_side).
  replace (1 <=? min_dims) with true by (symmetry; apply Z.leb_le; lia).
  replace (min_dims <=? max_dims) with true by (symmetry; apply Z.leb_le; lia).
  replace (0 <? min_side) with true by (symmetry; apply Z.ltb_lt; lia).
  replace (min_side <? or_default 10 max_side) with true
    by (symmetry; apply Z.ltb_lt; lia).
  reflexivity.
Qed.

Lemma cuml_array_shapes_invalid min_dims max_dims min_side max_side src :
  ~ (1 <= min_dims <= max_dims /\ 0 < min_side < or_default 10 max_side) ->
  exists msg,
    cuml_array_shapes_definition min_dims max_dims min_side max_side src
    = Raised (ValueError msg).
Proof.
  intros Hbad. unfold cuml_array_shapes_definition.
  fold (or_default 10 max_side).
  destruct ((1 <=? min_dims) && (min_dims <=? max_dims)) eqn:Ed; simpl.
  - destruct ((0 <? min_side) && (min_side <? or_default 10 max_side))
      eqn:Es; simpl.
    + exfalso. apply Hbad.
      apply andb_true_iff in Ed. destruct Ed as [E1 E2].
      apply andb_true_iff in Es. destruct Es as [E3 E4].
      apply Z.leb_le in E1, E2. apply Z.ltb_lt in E3, E4. lia.
    + eexists. reflexivity.
  - eexists. reflexivity.
Qed.

Example cuml_array_shapes_draw :
  sample (cuml_array_shapes 1 2 1 None) [1; 4; 7] = Value ([5; 8], []).
Proof. reflexivity. Qed.

Example cuml_array_shapes_bad_side :
  sample (cuml_array_shapes 1 2 10 None) [1; 4; 7]
  = Raised (ValueError
      "Arguments violate condition 0 < min_side < max_side."%string).
Proof. reflexivity. Qed.

(** C3, as the code has it: calling [cuml_array_shapes] with bounds that
    violate [1 <= min_dims <= max_dims] or [0 < min_side < max_side]
    returns a strategy object without raising; the [ValueError] is raised
    each time that strategy is drawn from, whatever the choices of the
    engine and before the shape primitive is consulted. *)
Theorem cuml_array_shapes_invalid_bounds_raise_when_drawn
    min_dims max_dims min_side max_side :
  ~ (1 <= min_dims <= max_dims /\ 0 < min_side < or_default 10 max_side) ->
  (exists s,
     cuml_array_shapes min_dims max_dims min_side max_side = Returns s)
  /\ forall src, exists msg,
       sample (cuml_array_shapes min_dims max_dims min_side max_side) src
       = Raised (ValueError msg).
Proof.
  intros Hbad. split.
  - eexists. reflexivity.
  - intros src. rewrite cuml_array_shapes_sample.
    apply cuml_array_shapes_invalid. exact Hbad.
Qed.

Lemma cuml_array_shapes_invalid_bounds_raise_when_drawn_witness :
  (exists s, cuml_array_shapes 3 2 1 None = Returns s)
  /\ forall src, exists msg,
       sample (cuml_array_shapes 3 2 1 None) src = Raised (ValueError msg).
Proof.
  apply (cuml_array_shapes_invalid_bounds_raise_when_drawn 3 2 1 None).
  simpl. lia.
Defined.

(** C3, as stated, fails: constructing the strategy with [min_dims=3,
    max_dims=2] returns, it raises nothing. *)
Lemma cuml_array_shapes_construction_does_not_raise :
  cuml_array_shapes 3 2 1 None
  = Returns (cuml_array_shapes_definition 3 2 1 None)
  /\ ~ (exists e, cuml_array_shapes 3 2 1 None = Raises e).
Proof.
  split; [reflexivity|]. intros [e He]. discriminate He.
Qed.

Lemma cuml_array_shapes_sound min_dims max_dims min_side max_side src s src1 :
  1 <= min_dims <= max_dims ->
  0 < min_side < or_default 10 max_side ->
  sample (cuml_array_shapes min_dims max_dims min_side max_side) src
    = Value (s, src1) ->
  min_dims <= Z.of_nat (List.length s) <= max_dims
  /\ Forall (fun d => min_side <= d <= or_default 10 max_side) s.
Proof.
  intros Hd Hs. rewrite cuml_array_shapes_sample.
  rewrite (cuml_array_shapes_valid _ _ _ _ Hd Hs).
  apply array_shapes_spec.
Qed.

Lemma cuml_array_shapes_productive min_dims max_dims min_side max_side src :
  1 <= min_dims <= max_dims ->
  0 < min_side < or_default 10 max_side ->
  max_dims <= NDIM_MAX ->
  exists s src1,
    sample (cuml_array_shapes min_dims max_dims min_side max_side) src
    = Value (s, src1).
Proof.
  intros Hd Hs Hmax. rewrite cuml_array_shapes_sample.
  rewrite (cuml_array_shapes_valid _ _ _ _ Hd Hs).
  apply array_shapes_total; lia.
Qed.

(** C4: under valid bounds ([1 <= min_dims <= max_dims] and
    [0 < min_side < max_side], [max_side] being 10 when unspecified) every
    shape [cuml_array_shapes] yields has between [min_dims] and [max_dims]
    dimensions and every axis between [min_side] and [max_side], and a
    shape is yielded whenever [max_dims] is a dimensionality numpy has.  In
    particular [cuml_array_shapes(min_dims=1, max_dims=2, min_side=1,
    max_side=10)] always yields a shape, never one with 0 or 3 dimensions
    nor with an axis of 0 or 11. *)
Theorem cuml_array_shapes_within_bounds :
  (forall min_dims max_dims min_side max_side src,
     1 <= min_dims <= max_dims ->
     0 < min_side < or_default 10 max_side ->
     (forall s src1,
        sample (cuml_array_shapes min_dims max_dims min_side max_side) src
          = Value (s, src1) ->
        min_dims <= Z.of_nat (List.length s) <= max_dims
        /\ Forall (fun d => min_side <= d <= or_default 10 max_side) s)
     /\ (max_dims <= NDIM_MAX ->
         exists s src1,
           sample (cuml_array_shapes min_dims max_dims min_side max_side) src
           = Value (s, src1)))
  /\ (forall src, exists s src1,
        sample (cuml_array_shapes 1 2 1 (Some 10)) src = Value (s, src1)
        /\ List.length s <> 0%nat /\ List.length s <> 3%nat
        /\ ~ In 0 s /\ ~ In 11 s).
Proof.
  split.
  - intros min_dims max_dims min_side max_side src Hd Hs. split.
    + intros s src1. apply cuml_array_shapes_sound; assumption.
    + apply cuml_array_shapes_productive; assumption.
  - intros src.
    destruct (cuml_array_shapes_productive 1 2 1 (Some 10) src)
      as (s & src1 & Hv); [lia | simpl; lia | unfold NDIM_MAX; lia |].
    exists s, src1. split; [exact Hv|].
    apply cuml_array_shapes_sound in Hv; [| lia | simpl; lia].
    destruct Hv as [Hlen Hall]. simpl in Hall.
    rewrite Forall_forall in Hall.
    repeat split; try lia.
    + intros Hin. apply Hall in Hin. lia.
    + intros Hin. apply Hall in Hin. lia.
Qed.

Lemma cuml_array_shapes_within_bounds_witness :
  (forall s src1,
     sample (cuml_array_shapes 1 2 1 None) [1; 4; 7] = Value (s, src1) ->
     1 <= Z.of_nat (List.length s) <= 2
     /\ Forall (fun d => 1 <= d <= 10) s)
  /\ (2 <= NDIM_MAX ->
      exists s src1,
        sample (cuml_array_shapes 1 2 1 None) [1; 4; 7] = Value (s, src1)).
Proof.
  apply (proj1 cuml_array_shapes_within_bounds 1 2 1 None [1; 4; 7]).
  - lia.
  - simpl. lia.
Defined.

(** ** Array materializer *)

Lemma bind_Rejected {A B} (s : Strategy A) (k : A -> Strategy B) src :
  s src = Rejected -> bind s k src = Rejected.
Proof. unfold bind. intros ->. reflexivity. Qed.

Lemma sampled_from_total {A} (a : A) (l : list A) src :
  exists v src1, sampled_from (a :: l) src = Value (v, src1).
Proof.
  unfold sampled_from.
  destruct (next_choice_total src) as (c & src1 & Hc).
  rewrite (bind_Value _ _ _ _ _ Hc). unfold ret. eauto.
Qed.

Lemma input_type_is_series_neq t :
  t <> "series"%string -> input_type_is (Some t) "series" = false.
Proof. intros H. simpl. apply String.eqb_neq. exact H. Qed.

Lemma series_rejected dt s o src :
  dtype_in dt _UNSUPPORTED_CUDF_DTYPES || multidimensional s = true ->
  create_cuml_array_input (Some "series"%string) dt s o src = Rejected.
Proof.
  intros H. unfold create_cuml_array_input.
  apply bind_Rejected. unfold assume.
  change (input_type_is (Some "series"%string) "series") with true.
  rewrite H. reflexivity.
Qed.

Lemma dtype_in_unsupported dt :
  In dt [uint8; uint16; uint32; uint64; float16] ->
  dtype_in dt _UNSUPPORTED_CUDF_DTYPES = true.
Proof.
  simpl. intros [<- | [<- | [<- | [<- | [<- | []]]]]]; reflexivity.
Qed.

Lemma default_shapes_total src :
  exists s src1, default_shapes src = Value (s, src1).
Proof.
  unfold default_shapes, map_strategy.
  destruct (array_shapes_total 1 2 1 6 src) as (s & src1 & Hs);
    [lia | unfold NDIM_MAX; lia | lia |].
  change (array_shapes 1 (Some 2) 1 None)
    with (array_shapes 1 (Some 2) 1 (Some 6)).
  rewrite (bind_Value _ _ _ _ _ Hs). unfold ret. eauto.
Qed.

Lemma default_orders_total src :
  exists o src1, default_orders src = Value (o, src1).
Proof. apply sampled_from_total. Qed.

Lemma cuml_arrays_series_float16 shapes orders src :
  (forall r,
     sample (cuml_arrays (just (Some "series"%string)) (just float16)
               shapes orders) src <> Value r)
  /\ (forall s src1 o src2,
        shapes src = Value (s, src1) -> orders src1 = Value (o, src2) ->
        sample (cuml_arrays (just (Some "series"%string)) (just float16)
                  shapes orders) src = Rejected).
Proof.
  assert (Hrun :
    sample (cuml_arrays (just (Some "series"%string)) (just float16)
              shapes orders) src
    = match shapes src with
      | Value (s, src1) =>
          match orders src1 with
          | Value (o, src2) => Rejected
          | Rejected => Rejected
          | Raised e => Raised e
          end
      | Rejected => Rejected
      | Raised e => Raised e
      end).
  { simpl. unfold cuml_arrays_definition, draw, just, ret, bind.
    destruct (shapes src) as [[s src1] | | e]; try reflexivity;
      destruct (orders src1) as [[o src2] | | e]; reflexivity. }
  split.
  - intros r. rewrite Hrun.
    destruct (shapes src) as [[s src1] | | e]; try discriminate.
    destruct (orders src1) as [[o src2] | | e]; discriminate.
  - intros s src1 o src2 Hs Ho. rewrite Hrun, Hs, Ho. reflexivity.
Qed.

Lemma cuml_arrays_series_rejected input_types dtypes shapes orders
    src src1 dt src2 s src3 o src4 :
  input_types src = Value (Some "series"%string, src1) ->
  dtypes src1 = Value (dt, src2) ->
  shapes src2 = Value (s, src3) ->
  orders src3 = Value (o, src4) ->
  dtype_in dt _UNSUPPORTED_CUDF_DTYPES || multidimensional s = true ->
  sample (cuml_arrays input_types dtypes shapes orders) src = Rejected.
Proof.
  intros Hit Hdt Hs Ho Hbad. simpl.
  unfold cuml_arrays_definition, draw.
  rewrite (bind_Value _ _ _ _ _ Hit), (bind_Value _ _ _ _ _ Hdt),
    (bind_Value _ _ _ _ _ Hs), (bind_Value _ _ _ _ _ Ho).
  apply bind_Rejected. apply series_rejected. exact Hbad.
Qed.

Lemma series_condition dt s :
  In dt [uint8; uint16; uint32; uint64; float16]
  \/ (exists dims,
        s = ShapeTuple dims
        /\ (2 <= List.length (filter (fun d => (1 <? d)%Z) dims))%nat) ->
  dtype_in dt _UNSUPPORTED_CUDF_DTYPES || multidimensional s = true.
Proof.
  intros [Hdt | (dims & -> & Hmulti)].
  - rewrite (dtype_in_unsupported _ Hdt). reflexivity.
  - apply orb_true_iff. right. simpl. apply Z.ltb_lt. lia.
Qed.

(** C6: with input type ['series'], a dtype of the unsupported set
    [{uint8, uint16, uint32, uint64, float16}] or a shape with more than
    one axis larger than 1 makes [create_cuml_array_input] reject the
    sample; it raises nothing, and so does every [cuml_arrays] attempt
    that draws such a combination.  Hence [cuml_arrays] with
    [input_types=just('series')] and [dtypes=just(float16)] never yields a
    value, rejects whenever its shape and order strategies yield one, and
    with the default shapes and orders rejects every attempt. *)
Theorem series_unsupported_combinations_are_rejected :
  (forall dt s o src,
      In dt [uint8; uint16; uint32; uint64; float16]
      \/ (exists dims,
            s = ShapeTuple dims
            /\ (2 <= List.length (filter (fun d => (1 <? d)%Z) dims))%nat) ->
      create_cuml_array_input (Some "series"%string) dt s o src = Rejected)
  /\ (forall input_types dtypes shapes orders src src1 dt src2 s src3 o src4,
        input_types src = Value (Some "series"%string, src1) ->
        dtypes src1 = Value (dt, src2) ->
        shapes src2 = Value (s, src3) ->
        orders src3 = Value (o, src4) ->
        In dt [uint8; uint16; uint32; uint64; float16]
        \/ (exists dims,
              s = ShapeTuple dims
              /\ (2 <= List.length
                          (filter (fun d => (1 <? d)%Z) dims))%nat) ->
        sample (cuml_arrays input_types dtypes shapes orders) src = Rejected)
  /\ (forall shapes orders src,
        (forall r,
           sample (cuml_arrays (just (Some "series"%string)) (just float16)
                     shapes orders) src <> Value r)
        /\ (forall s src1 o src2,
              shapes src = Value (s, src1) -> orders src1 = Value (o, src2) ->
              sample (cuml_arrays (just (Some "series"%string))
                        (just float16) shapes orders) src = Rejected))
  /\ (forall src,
        sample (cuml_arrays (just (Some "series"%string)) (just float16)
                  default_shapes default_orders) src = Rejected).
Proof.
  split; [|split; [|split]].
  - intros dt s o src Hbad. apply series_rejected, series_condition, Hbad.
  - intros input_types dtypes shapes orders src src1 dt src2 s src3 o src4
      Hit Hdt Hs Ho Hbad.
    apply (cuml_arrays_series_rejected _ _ _ _ _ _ _ _ _ _ _ _
             Hit Hdt Hs Ho).
    apply series_condition, Hbad.
  - intros shapes orders src. apply cuml_arrays_series_float16.
  - intros src.
    destruct (default_shapes_total src) as (s & src1 & Hs).
    destruct (default_orders_total src1) as (o & src2 & Ho).
    exact (proj2 (cuml_arrays_series_float16 _ _ src) s src1 o src2 Hs Ho).
Qed.

Lemma series_unsupported_combinations_are_rejected_witness :
  create_cuml_array_input (Some "series"%string) int32
    (ShapeTuple [2; 1; 3]) C_order [5; 8] = Rejected.
Proof.
  apply (proj1 series_unsupported_combinations_are_rejected).
  right. exists [2; 1; 3]. split; [reflexivity | simpl; lia].
Defined.

(** ** Unknown input types *)

Lemma create_cuml_array_input_on_returning ones asnumpy_array Series
    it dt s o src :
  create_cuml_array_input_on
    (fun s dt o => Returns (ones s dt o))
    (fun a dt o => Returns (asnumpy_array a dt o))
    (fun a => Returns (Series a)) it dt s o src
  = (let multidimensional := multidimensional s in
     assume (negb (input_type_is it "series"
                   && (dtype_in dt _UNSUPPORTED_CUDF_DTYPES
                       || multidimensional))) ;;;
     let array := ones s dt o in
     if input_type_is it "numpy" then ret (asnumpy_array array dt o)
     else if input_type_is it "series" then ret (Series array)
     else if (match it with None => true | Some _ => false end)
             || input_type_is it "cupy" then ret array
     else throw (ValueError
            ("Unknown input_type '" ++ input_type_str it ++ ".")%string)) src.
Proof.
  unfold create_cuml_array_input_on, bind, lift_call, ret.
  destruct (assume _ src) as [[[] src0]| |e]; reflexivity.
Qed.

(** With array libraries whose calls all return, the general materializer
    is [create_cuml_array_input]. *)
Lemma create_cuml_array_input_on_total_libraries it dt s o src :
  create_cuml_array_input_on
    (fun s dt o => Returns (cp_ones s dt o))
    (fun a dt o => Returns (np_array_of a dt o))
    (fun a => Returns (cudf_Series a)) it dt s o src
  = create_cuml_array_input it dt s o src.
Proof. apply create_cuml_array_input_on_returning. Qed.

Lemma unknown_input_type_tests it :
  ~ In it _CUML_ARRAY_INPUT_TYPES ->
  input_type_is it "numpy" = false
  /\ input_type_is it "series" = false
  /\ (match it with None => true | Some _ => false end)
     || input_type_is it "cupy" = false.
Proof.
  intros Hout. destruct it as [t|].
  - simpl. repeat split; apply String.eqb_neq; intros ->; apply Hout;
      simpl; tauto.
  - exfalso. apply Hout. simpl. tauto.
Qed.

(** C8: for every input type outside ['numpy', 'cupy', 'series', None],
    whatever the dtype, shape and order and however the array libraries
    behave, [create_cuml_array_input] raises (an exception, never a
    rejection or a value): the [ValueError] for the unknown input type
    whenever [cp.ones] returns, and the exception of [cp.ones] when that
    call, which comes first, raises.  For every input type inside that
    domain it never raises of its own: an exception it surfaces is the
    one raised by [cp.ones] or by the conversion of its input type. *)
Theorem create_cuml_array_input_unknown_input_type
    ones asnumpy_array Series it dt s o src :
  (~ In it _CUML_ARRAY_INPUT_TYPES ->
     (forall a, ones s dt o = Returns a ->
        create_cuml_array_input_on ones asnumpy_array Series it dt s o src
        = Raised (ValueError
            ("Unknown input_type '" ++ input_type_str it ++ ".")%string))
     /\ (forall e, ones s dt o = Raises e ->
          create_cuml_array_input_on ones asnumpy_array Series it dt s o src
          = Raised e))
  /\ (In it _CUML_ARRAY_INPUT_TYPES ->
      forall e,
        create_cuml_array_input_on ones asnumpy_array Series it dt s o src
        = Raised e ->
        ones s dt o = Raises e
        \/ exists a,
             ones s dt o = Returns a
             /\ ((it = Some "numpy"%string
                  /\ asnumpy_array a dt o = Raises e)
                 \/ (it = Some "series"%string /\ Series a = Raises e))).
Proof.
  split.
  - intros Hout.
    destruct (unknown_input_type_tests it Hout) as (Hn & Hs & Hc).
    unfold create_cuml_array_input_on. rewrite Hn, Hs, Hc. simpl.
    split.
    + intros a Ha. unfold bind, assume, lift_call. rewrite Ha. reflexivity.
    + intros e He. unfold bind, assume, lift_call. rewrite He. reflexivity.
  - intros Hin e. unfold create_cuml_array_input_on, bind, assume, lift_call.
    destruct (negb _); [|discriminate].
    destruct (ones s dt o) as [a|e0].
    + unfold ret at 1. intros H. right. exists a. split; [reflexivity|].
      simpl in Hin.
      destruct Hin as [<- | [<- | [<- | [<- | []]]]]; simpl in H.
      * left. split; [reflexivity|].
        destruct (asnumpy_array a dt o); [discriminate H|].
        unfold throw in H. congruence.
      * discriminate H.
      * right. split; [reflexivity|].
        destruct (Series a); [discriminate H|].
        unfold throw in H. congruence.
      * discriminate H.
    + unfold throw. intros H. left. congruence.
Qed.

Lemma create_cuml_array_input_unknown_input_type_witness :
  (create_cuml_array_input_on checked_cp_ones
     (fun a dt o => Returns (np_array_of a dt o))
     (fun a => Returns (cudf_Series a))
     (Some "pandas"%string) float32 (ShapeTuple [3; 2]) F_order [4]
   = Raised (ValueError "Unknown input_type 'pandas."%string))
  /\ (create_cuml_array_input_on checked_cp_ones
        (fun a dt o => Returns (np_array_of a dt o))
        (fun a => Returns (cudf_Series a))
        (Some "pandas"%string) float32 (ShapeTuple [3; -1]) F_order [4]
      = Raised (ValueError "negative dimensions are not allowed"%string))
  /\ (checked_cp_ones (ShapeTuple [-1]) float32 C_order
      = Raises (ValueError "negative dimensions are not allowed"%string)
      \/ exists a,
           checked_cp_ones (ShapeTuple [-1]) float32 C_order = Returns a
           /\ ((Some "numpy"%string = Some "numpy"%string
                /\ Returns (np_array_of a float32 C_order)
                   = Raises
                       (ValueError
                          "negative dimensions are not allowed"%string))
               \/ (Some "numpy"%string = Some "series"%string
                   /\ Returns (cudf_Series a)
                      = Raises
                          (ValueError
                             "negative dimensions are not allowed"%string)))).
Proof.
  split; [|split].
  - apply (proj1 (proj1 (create_cuml_array_input_unknown_input_type
             checked_cp_ones (fun a dt o => Returns (np_array_of a dt o))
             (fun a => Returns (cudf_Series a))
             (Some "pandas"%string) float32 (ShapeTuple [3; 2]) F_order [4])
             ltac:(simpl; intros [H | [H | [H | [H | []]]]]; discriminate H))
           (cp_ones (ShapeTuple [3; 2]) float32 F_order)).
    reflexivity.
  - apply (proj2 (proj1 (create_cuml_array_input_unknown_input_type
             checked_cp_ones (fun a dt o => Returns (np_array_of a dt o))
             (fun a => Returns (cudf_Series a))
             (Some "pandas"%string) float32 (ShapeTuple [3; -1]) F_order [4])
             ltac:(simpl; intros [H | [H | [H | [H | []]]]]; discriminate H))).
    reflexivity.
  - apply (proj2 (create_cuml_array_input_unknown_input_type
             checked_cp_ones (fun a dt o => Returns (np_array_of a dt o))
             (fun a => Returns (cudf_Series a))
             (Some "numpy"%string) float32 (ShapeTuple [-1]) C_order [4])
             ltac:(simpl; tauto)).
    reflexivity.
Defined.

(** ** Standard datasets *)

Lemma arrays_shape dtypes s src a src1 :
  arrays dtypes s src = Value (a, src1) -> array_shape a = s.
Proof.
  unfold arrays. destruct (negb _); [discriminate|].
  intros H. bind_inv H. injection H as <- _. reflexivity.
Qed.

Lemma arrays_total dtypes s src :
  Forall (fun d => 0 <= d) s ->
  (forall src0, exists dt src1, dtypes src0 = Value (dt, src1)) ->
  exists a src1, arrays dtypes s src = Value (a, src1).
Proof.
  intros Hs Hdt. unfold arrays.
  replace (forallb (fun d => 0 <=? d) s) with true.
  - simpl. destruct (Hdt src) as (dt & src1 & Hd). unfold draw.
    rewrite (bind_Value _ _ _ _ _ Hd). unfold ret. eauto.
  - symmetry. apply forallb_forall. rewrite Forall_forall in Hs.
    intros d Hin. apply Z.leb_le. apply Hs. exact Hin.
Qed.

Lemma standard_datasets_shapes dtypes n_samples n_features n_targets
    src X y src1 :
  sample (standard_datasets dtypes n_samples n_features n_targets) src
    = Value ((X, y), src1) ->
  exists xs ys nt src0,
    n_samples src = Value (xs, src0)
    /\ array_shape X = [xs; ys] /\ array_shape y = [xs; nt].
Proof.
  simpl. unfold standard_datasets_definition, draw. intros H.
  apply bind_Value_inv in H. destruct H as (xs & src0 & Hxs & H).
  apply bind_Value_inv in H. destruct H as (ys & src2 & Hys & H).
  apply bind_Value_inv in H. destruct H as (nt & src3 & Hnt & H).
  apply bind_Value_inv in H. destruct H as (X_ & src4 & HX & H).
  apply bind_Value_inv in H. destruct H as (y_ & src5 & Hy & H).
  injection H as <- <- _.
  apply arrays_shape in HX, Hy.
  exists xs, ys, nt, src0. auto.
Qed.

Lemma standard_datasets_default_total src :
  exists X y src1,
    sample (standard_datasets floating_dtypes (integers 0 200)
              (integers 0 200) (just 1)) src = Value ((X, y), src1).
Proof.
  simpl. unfold standard_datasets_definition, draw.
  destruct (integers_total 0 200 src) as (xs & src0 & Hxs); [lia|].
  rewrite (bind_Value _ _ _ _ _ Hxs).
  destruct (integers_total 0 200 src0) as (ys & src2 & Hys); [lia|].
  rewrite (bind_Value _ _ _ _ _ Hys).
  apply integers_range in Hxs, Hys.
  unfold just at 1. unfold bind at 1, ret at 1.
  destruct (arrays_total floating_dtypes [xs; ys] src2) as (X & src3 & HX).
  { repeat constructor; lia. }
  { intros src'. apply sampled_from_total. }
  rewrite (bind_Value _ _ _ _ _ HX).
  destruct (arrays_total floating_dtypes [xs; 1] src3) as (y & src4 & Hy).
  { repeat constructor; lia. }
  { intros src'. apply sampled_from_total. }
  rewrite (bind_Value _ _ _ _ _ Hy). unfold ret. eauto.
Qed.

Lemma standard_datasets_draws dtypes n_samples n_features n_targets
    src X y src1 :
  sample (standard_datasets dtypes n_samples n_features n_targets) src
    = Value ((X, y), src1) ->
  exists xs ys nt src0 src2 src3,
    n_samples src = Value (xs, src0)
    /\ n_features src0 = Value (ys, src2)
    /\ n_targets src2 = Value (nt, src3)
    /\ array_shape X = [xs; ys] /\ array_shape y = [xs; nt].
Proof.
  simpl. unfold standard_datasets_definition, draw. intros H.
  apply bind_Value_inv in H. destruct H as (xs & src0 & Hxs & H).
  apply bind_Value_inv in H. destruct H as (ys & src2 & Hys & H).
  apply bind_Value_inv in H. destruct H as (nt & src3 & Hnt & H).
  apply bind_Value_inv in H. destruct H as (X_ & src4 & HX & H).
  apply bind_Value_inv in H. destruct H as (y_ & src5 & Hy & H).
  injection H as <- <- _.
  apply arrays_shape in HX, Hy.
  exists xs, ys, nt, src0, src2, src3. auto.
Qed.

(** C7: every dataset [standard_datasets] yields has an [X] of shape
    [(xs, ys)] and a [y] of shape [(xs, nt)], where [xs] is the value drawn
    first from [n_samples], [ys] the value drawn next from [n_features] and
    [nt] the value drawn after it from [n_targets]; so [len(X) == len(y)],
    both being [xs]; and with its default arguments every attempt yields a
    dataset. *)
Theorem standard_datasets_leading_dimension :
  (forall dtypes n_samples n_features n_targets src X y src1,
     sample (standard_datasets dtypes n_samples n_features n_targets) src
       = Value ((X, y), src1) ->
     exists xs ys nt src0 src2 src3,
       n_samples src = Value (xs, src0)
       /\ n_features src0 = Value (ys, src2)
       /\ n_targets src2 = Value (nt, src3)
       /\ array_shape X = [xs; ys] /\ array_shape y = [xs; nt]
       /\ forall src', py_len X src' = Value (xs, src')
                       /\ py_len y src' = Value (xs, src'))
  /\ (forall src, exists X y src1,
        sample (standard_datasets floating_dtypes (integers 0 200)
                  (integers 0 200) (just 1)) src = Value ((X, y), src1)).
Proof.
  split.
  - intros dtypes n_samples n_features n_targets src X y src1 H.
    destruct (standard_datasets_draws _ _ _ _ _ _ _ _ H)
      as (xs & ys & nt & src0 & src2 & src3 & Hxs & Hys & Hnt & HX & Hy).
    exists xs, ys, nt, src0, src2, src3. repeat split; try assumption.
    + unfold py_len, len_of. rewrite HX. reflexivity.
    + unfold py_len, len_of. rewrite Hy. reflexivity.
  - apply standard_datasets_default_total.
Qed.

Lemma standard_datasets_leading_dimension_witness :
  exists xs ys nt src0 src2 src3,
    integers 0 200 [7; 3; 1; 2] = Value (xs, src0)
    /\ integers 0 200 src0 = Value (ys, src2)
    /\ just 1 src2 = Value (nt, src3)
    /\ array_shape (mkArray NumpyArray float32 [7; 3] C_order) = [xs; ys]
    /\ array_shape (mkArray NumpyArray float64 [7; 1] C_order) = [xs; nt]
    /\ forall src',
         py_len (mkArray NumpyArray float32 [7; 3] C_order) src'
           = Value (xs, src')
         /\ py_len (mkArray NumpyArray float64 [7; 1] C_order) src'
           = Value (xs, src').
Proof.
  apply (proj1 standard_datasets_leading_dimension floating_dtypes
           (integers 0 200) (integers 0 200) (just 1) [7; 3; 1; 2]
           (mkArray NumpyArray float32 [7; 3] C_order)
           (mkArray NumpyArray float64 [7; 1] C_order) []).
  reflexivity.
Defined.

(** ** Regression datasets *)

Lemma round53_small m : 0 <= m < 2 ^ 53 -> round53 m = m.
Proof.
  intros [H0 H1]. unfold round53.
  destruct (Z.eq_dec m 0) as [->|Hm]; [reflexivity|].
  assert (Z.log2 m < 53) by (apply Z.log2_lt_pow2; lia).
  destruct (Z.leb_spec (Z.log2 m + 1 - 53) 0); [reflexivity|lia].
Qed.

(** The rounding of a number of more than 53 bits: a multiple of the unit
    [2 * h] in the last place that is at most half a unit away. *)
Lemma round53_large m :
  2 ^ 53 <= m ->
  exists s h t,
    s = Z.log2 m - 52 /\ 0 < s /\ h = 2 ^ (s - 1) /\ 0 < h
    /\ h * 2 ^ 53 <= m
    /\ t = (m / 2 ^ s) * 2 ^ s /\ t <= m < t + 2 * h
    /\ (round53 m = t \/ (round53 m = t + 2 * h /\ h <= m - t)).
Proof.
  intros Hm.
  assert (Hpos : 0 < m) by (pose proof (Z.pow_pos_nonneg 2 53); lia).
  assert (Hl : 53 <= Z.log2 m) by (apply Z.log2_le_pow2; lia).
  set (s := Z.log2 m - 52).
  assert (Hs : 0 < s) by (unfold s; lia).
  exists s, (2 ^ (s - 1)), ((m / 2 ^ s) * 2 ^ s).
  assert (Hh : 0 < 2 ^ (s - 1)) by (apply Z.pow_pos_nonneg; lia).
  assert (H2h : 2 ^ s = 2 * 2 ^ (s - 1)).
  { replace s with (Z.succ (s - 1)) at 1 by lia. apply Z.pow_succ_r. lia. }
  assert (Hlow : 2 ^ (s - 1) * 2 ^ 53 <= m).
  { rewrite <- Z.pow_add_r by lia. replace (s - 1 + 53) with (Z.log2 m)
      by (unfold s; lia). apply Z.log2_spec. exact Hpos. }
  assert (Hdiv : (m / 2 ^ s) * 2 ^ s <= m < (m / 2 ^ s) * 2 ^ s + 2 ^ s).
  { pose proof (Z.div_mod m (2 ^ s)). pose proof (Z.mod_pos_bound m (2 ^ s)).
    lia. }
  repeat split; try assumption; try reflexivity; try lia.
  unfold round53. fold s. replace (Z.log2 m + 1 - 53) with s by (unfold s; lia).
  destruct (Z.leb_spec s 0); [lia|].
  rewrite !Z.shiftl_mul_pow2, Z.shiftr_div_pow2 by lia. rewrite Z.mul_1_l.
  destruct (_ || _) eqn:E.
  - right. split; [lia|].
    apply orb_true_iff in E. destruct E as [E|E].
    + apply Z.ltb_lt in E. lia.
    + apply andb_true_iff in E. destruct E as [E _]. apply Z.eqb_eq in E. lia.
  - left. reflexivity.
Qed.

Lemma round53_nonneg m : 0 <= m -> 0 <= round53 m.
Proof.
  intros Hm. destruct (Z_lt_le_dec m (2 ^ 53)) as [Hlt|Hge].
  - rewrite round53_small; lia.
  - destruct (round53_large m Hge)
      as (s & h & t & _ & Hs & _ & Hh & _ & Ht & Hb & Hr).
    assert (0 <= t).
    { subst t. apply Z.mul_nonneg_nonneg.
      - apply Z.div_pos; [lia|apply Z.pow_pos_nonneg; lia].
      - apply Z.pow_nonneg. lia. }
    destruct Hr as [->|[-> _]]; lia.
Qed.

Lemma round53_le_double m : 0 <= m -> round53 m <= 2 * m.
Proof.
  intros Hm. destruct (Z_lt_le_dec m (2 ^ 53)) as [Hlt|Hge].
  - rewrite round53_small; lia.
  - destruct (round53_large m Hge)
      as (s & h & t & _ & Hs & _ & Hh & Hlow & Ht & Hb & Hr).
    assert (h <= m) by (change (2 ^ 53) with 9007199254740992 in Hlow; lia).
    destruct Hr as [->|[-> ?]]; lia.
Qed.

(** Up to [2 ** 50] the binary64 product [0.1 * n] truncates to the
    integer quotient of [n] by 10. *)
Lemma tenth_exact n :
  0 <= n <= 2 ^ 50 -> round53 (n * tenth_significand) / 2 ^ 55 = n / 10.
Proof.
  intros Hn. unfold tenth_significand.
  change (2 ^ 50) with 1125899906842624 in Hn.
  pose proof (Z.div_mod n 10) as Hk. pose proof (Z.mod_pos_bound n 10) as Hj.
  set (k := n / 10) in *. set (j := n mod 10) in *.
  set (m := n * 3602879701896397).
  symmetry. apply Z.div_unique with (r := round53 m - k * 2 ^ 55).
  2: lia.
  left.
  destruct (Z_lt_le_dec m (2 ^ 53)) as [Hlt|Hge].
  - rewrite round53_small by (unfold m; lia).
    change (2 ^ 55) with 36028797018963968. unfold m. lia.
  - destruct (round53_large m Hge)
      as (s & h & t & Hs & Hs0 & Hh & Hh0 & Hlow & Ht & Hb & Hr).
    assert (Hm102 : m < 2 ^ 102).
    { unfold m. change (2 ^ 102) with (1125899906842624 * 4503599627370496).
      lia. }
    assert (Hs55 : s <= 55).
    { assert (Z.log2 m < 102) by (apply Z.log2_lt_pow2; unfold m in *; lia).
      lia. }
    assert (Hkt : k * 2 ^ 55 <= t).
    { subst t. replace (2 ^ 55) with (2 ^ (55 - s) * 2 ^ s)
        by (rewrite <- Z.pow_add_r by lia; f_equal; lia).
      rewrite Z.mul_assoc. apply Z.mul_le_mono_nonneg_r.
      - apply Z.pow_nonneg. lia.
      - apply Z.div_le_lower_bound; [apply Z.pow_pos_nonneg; lia|].
        rewrite (Z.mul_comm (2 ^ s)), <- Z.mul_assoc, <- Z.pow_add_r by lia.
        replace (55 - s + s) with 55 by lia.
        change (2 ^ 55) with 36028797018963968. unfold m. lia. }
    change (2 ^ 53) with 9007199254740992 in Hlow.
    change (2 ^ 55) with 36028797018963968 in *.
    unfold m in *.
    destruct Hr as [->|[-> ?]]; lia.
Qed.

Lemma int_of_tenth_exact n :
  0 <= n <= 2 ^ 50 -> int_of_tenth n = Returns (n / 10).
Proof.
  intros Hn. unfold int_of_tenth.
  change (2 ^ 50) with 1125899906842624 in Hn.
  rewrite Z.abs_eq by lia.
  rewrite round53_small
    by (change (2 ^ 53) with 9007199254740992; lia).
  destruct (Z.leb_spec (2 ^ 1024) n) as [Hbig|_].
  - exfalso. assert (2 ^ 53 <= 2 ^ 1024) by (apply Z.pow_le_mono_r; lia).
    change (2 ^ 53) with 9007199254740992 in *. lia.
  - rewrite tenth_exact by (change (2 ^ 50) with 1125899906842624; lia).
    destruct (Z.eq_dec n 0) as [->|Hnz]; [reflexivity|].
    rewrite Z.sgn_pos by lia. rewrite Z.mul_1_l. reflexivity.
Qed.

Lemma default_n_informative_positive n :
  0 < n <= 2 ^ 50 -> default_n_informative n = Returns (Z.max 1 (n / 10)).
Proof.
  intros Hn. unfold default_n_informative.
  rewrite int_of_tenth_exact by lia. rewrite Z.min_r by lia. reflexivity.
Qed.

Lemma default_n_informative_zero : default_n_informative 0 = Returns 0.
Proof. reflexivity. Qed.

Example default_n_informative_137 : default_n_informative 137 = Returns 13.
Proof. reflexivity. Qed.

Example default_n_informative_5 : default_n_informative 5 = Returns 1.
Proof. reflexivity. Qed.

(** Past [2 ** 50] the rounding of the product shows: for
    9007199254740989 features the default is one more than the integer
    quotient by 10. *)
Example default_n_informative_large :
  default_n_informative 9007199254740989 = Returns 900719925474099
  /\ 9007199254740989 / 10 = 900719925474098.
Proof. split; vm_compute; reflexivity. Qed.

(** An [int] too large for a float makes the default raise. *)
Example default_n_informative_overflow :
  default_n_informative (2 ^ 1024)
  = Raises (OverflowError "int too large to convert to float").
Proof. vm_compute. reflexivity. Qed.

Lemma default_n_informative_bounds n d :
  default_n_informative n = Returns d ->
  0 <= n ->
  0 <= d <= n /\ (1 <= n -> 1 <= d).
Proof.
  unfold default_n_informative, int_of_tenth. intros H Hn.
  rewrite Z.abs_eq in H by exact Hn.
  destruct (2 ^ 1024 <=? round53 n); [discriminate|].
  injection H as <-.
  set (t := round53 (round53 n * tenth_significand) / 2 ^ 55).
  assert (Ht : 0 <= t <= n).
  { pose proof (round53_nonneg n Hn) as Hf0.
    pose proof (round53_le_double n Hn) as Hf1.
    assert (Hm0 : 0 <= round53 n * tenth_significand)
      by (unfold tenth_significand; lia).
    pose proof (round53_nonneg _ Hm0) as Hr0.
    pose proof (round53_le_double _ Hm0) as Hr1.
    unfold t. split.
    - apply Z.div_pos; [exact Hr0|reflexivity].
    - apply Z.div_le_upper_bound; [reflexivity|].
      change (2 ^ 55) with 36028797018963968.
      unfold tenth_significand in *. lia. }
  destruct (Z.eq_dec n 0) as [->|Hnz].
  - assert (t = 0) by lia. rewrite Z.sgn_0. simpl. lia.
  - rewrite Z.sgn_pos by lia. rewrite Z.mul_1_l. lia.
Qed.

Lemma kwargs_n_informative n_samples n_features n_targets bias
    effective_rank tail_strength noise shuffle random_state src kw src1 :
  standard_regression_datasets_kwargs n_samples n_features None n_targets
    bias effective_rank tail_strength noise shuffle random_state src
    = Value (kw, src1) ->
  exists n src0,
    n_features src = Value (n, src0)
    /\ kw_n_features kw = n
    /\ default_n_informative n = Returns (kw_n_informative kw).
Proof.
  unfold standard_regression_datasets_kwargs, draw. intros H.
  apply bind_Value_inv in H. destruct H as (n & src0 & Hn & H).
  exists n, src0. split; [exact Hn|].
  apply bind_Value_inv in H. destruct H as (st & s0 & Hst & H).
  apply bind_Value_inv in Hst. destruct Hst as (d & s0' & Hd & Hst).
  unfold lift_call in Hd. destruct (default_n_informative n) as [d'|e];
    [|discriminate Hd].
  unfold ret in Hd, Hst. injection Hd as -> ->. injection Hst as <- <-.
  apply bind_Value_inv in H. destruct H as (ns & s1 & _ & H).
  unfold just at 1 in H. unfold bind at 1, ret at 1 in H.
  repeat (apply bind_Value_inv in H; destruct H as (? & ? & _ & H)).
  injection H as <- _. split; reflexivity.
Qed.

(** C5, as the code has it: when [n_informative] is left unspecified, the
    number of informative features handed to [make_regression] is
    [max(1, floor(n_features / 10))] for every drawn [n_features] with
    [0 < n_features <= 2 ** 50] (the binary64 product [0.1 * n_features]
    is truncated, not rounded to the nearest integer; past that bound the
    rounding of the product itself can add one), and 0 when the drawn
    [n_features] is 0. *)
Theorem regression_default_n_informative n_samples n_features n_targets
    bias effective_rank tail_strength noise shuffle random_state
    src kw src1 :
  standard_regression_datasets_kwargs n_samples n_features None n_targets
    bias effective_rank tail_strength noise shuffle random_state src
    = Value (kw, src1) ->
  exists n src0,
    n_features src = Value (n, src0)
    /\ kw_n_features kw = n
    /\ (0 < n <= 2 ^ 50 -> kw_n_informative kw = Z.max 1 (n / 10))
    /\ (n = 0 -> kw_n_informative kw = 0).
Proof.
  intros H. destruct (kwargs_n_informative _ _ _ _ _ _ _ _ _ _ _ _ H)
    as (n & src0 & Hn & Hf & Hi).
  exists n, src0. split; [exact Hn|]. split; [exact Hf|]. split.
  - intros Hpos. rewrite (default_n_informative_positive n Hpos) in Hi.
    congruence.
  - intros ->. rewrite default_n_informative_zero in Hi. congruence.
Qed.

Lemma regression_default_n_informative_witness :
  exists n src0,
    integers 100 200 [37; 5] = Value (n, src0)
    /\ kw_n_features
         (mkKwargs 105 137 13 1 0 None (1 # 2) 0 true (Some 42)) = n
    /\ (0 < n <= 2 ^ 50 ->
        kw_n_informative
          (mkKwargs 105 137 13 1 0 None (1 # 2) 0 true (Some 42))
        = Z.max 1 (n / 10))
    /\ (n = 0 ->
        kw_n_informative
          (mkKwargs 105 137 13 1 0 None (1 # 2) 0 true (Some 42)) = 0).
Proof.
  apply (regression_default_n_informative (integers 100 200)
           (integers 100 200) (just 1) (just 0%Q) none (just (1 # 2)%Q)
           (just 0%Q) (just true) (Some 42) [37; 5]
           (mkKwargs 105 137 13 1 0 None (1 # 2) 0 true (Some 42)) []).
  reflexivity.
Defined.

(** C5, as stated, fails: for 16 features the code hands 1 informative
    feature to [make_regression], where [max(1, round(0.1 * 16))] is 2. *)
Lemma regression_default_n_informative_is_not_rounded :
  (forall src,
     standard_regression_datasets_kwargs (just 100) (just 16) None (just 1)
       (just 0%Q) none (just (1 # 2)%Q) (just 0%Q) (just true) None src
     = Value (mkKwargs 100 16 1 1 0 None (1 # 2) 0 true None, src))
  /\ spec_n_informative 16 = 2
  /\ default_n_informative 16 <> Returns (spec_n_informative 16).
Proof.
  split; [|split].
  - intros src. reflexivity.
  - reflexivity.
  - discriminate.
Qed.

(** ** Train/test splits *)








Lemma lift_call_Value_inv {A} (c : call A) src r :
  lift_call c src = Value r -> c = Returns (fst r) /\ snd r = src.
Proof.
  destruct c as [a | e]; simpl; [|discriminate].
  intros H. injection H as <-. split; reflexivity.
Qed.


Section SplitProperties.

Variable train_test_split : array -> array -> test_size -> call split.


Lemma split_datasets_run datasets test_sizes src X y src0 n :
  datasets src = Value ((X, y), src0) ->
  len_of X = Some n ->
  1 < n ->
  sample (split_datasets train_test_split datasets test_sizes) src
  = (test_size <- sizes test_sizes n ;;
     check_test_size n test_size ;;;
     lift_call (train_test_split X y test_size)) src0.
Proof.
  intros Hd Hn Hgt. simpl. unfold split_datasets_definition, draw.
  rewrite (bind_Value _ _ _ _ _ Hd). cbv beta iota zeta.
  unfold py_len. rewrite Hn.
  unfold bind at 1, ret at 1.
  replace (1 <? n) with true by (symmetry; apply Z.ltb_lt; lia).
  reflexivity.
Qed.

(** C10: when the value drawn from the supplied [test_sizes] strategy is
    neither an [int] nor a [float] ([None], a numpy integer),
    [split_datasets] applies no size check to it and hands it to
    [train_test_split] as it is, whatever its value: the outcome of the
    attempt is the outcome of that call. *)
Theorem split_datasets_passes_untyped_test_size
    datasets test_sizes src X y src0 n ts src1 :
  datasets src = Value ((X, y), src0) ->
  len_of X = Some n ->
  1 < n ->
  test_sizes src0 = Value (ts, src1) ->
  ts = TsNone \/ (exists k, ts = TsNpInt k) ->
  check_test_size n ts = ret tt
  /\ sample (split_datasets train_test_split datasets (Some test_sizes)) src
     = lift_call (train_test_split X y ts) src1.
Proof.
  intros Hd Hn Hgt Hts Hkind.
  assert (Hcheck : check_test_size n ts = ret tt)
    by (destruct Hkind as [-> | [k ->]]; reflexivity).
  split; [exact Hcheck|].
  rewrite (split_datasets_run _ _ _ _ _ _ _ Hd Hn Hgt). unfold sizes.
  rewrite (bind_Value _ _ _ _ _ Hts). rewrite Hcheck. reflexivity.
Qed.

(** C2 on the code: for a dataset of exactly two rows and no [test_sizes],
    the default strategy [integers(1, max(1, len(X) - 1))] can only draw 1,
    which the check [1 < test_size < len(X)] refuses: every attempt is
    rejected and no split is ever yielded. *)
Theorem split_datasets_two_rows_default_rejects
    datasets src X y src0 :
  datasets src = Value ((X, y), src0) ->
  len_of X = Some 2 ->
  sample (split_datasets train_test_split datasets None) src = Rejected.
Proof.
  intros Hd Hn.
  rewrite (split_datasets_run _ _ _ _ _ _ _ Hd Hn) by lia.
  destruct (integers_total 1 1 src0) as (k & s1 & Hk); [lia|].
  pose proof (integers_range _ _ _ _ _ Hk) as Hr.
  assert (k = 1) by lia. subst k.
  unfold sizes, map_strategy, bind. change (Z.max 1 (2 - 1)) with 1.
  rewrite Hk. reflexivity.
Qed.

Section Contract.

(** The size contract of the partitioning primitive: on [n] rows it
    returns [test_rows] test rows and the remaining train rows. *)
Hypothesis train_test_split_sizes :
  forall X y ts Xtr Xte ytr yte n,
    train_test_split X y ts = Returns (Xtr, Xte, ytr, yte) ->
    len_of X = Some n ->
    len_of Xte = Some (test_rows n ts)
    /\ len_of Xtr = Some (n - test_rows n ts).

(** The primitive checks a numpy count itself: it refuses one that is not
    strictly between 0 and the number of rows. *)
Hypothesis train_test_split_checks_numpy_count :
  forall X y k r n,
    train_test_split X y (TsNpInt k) = Returns r ->
    len_of X = Some n ->
    0 < k < n.


End Contract.

End SplitProperties.




Lemma split_datasets_two_rows_default_rejects_witness :
  sample (split_datasets sized_train_test_split
            (just (mkArray NumpyArray float32 [2; 3] C_order,
                   mkArray NumpyArray float32 [2; 1] C_order)) None) [9]
  = Rejected.
Proof.
  apply (split_datasets_two_rows_default_rejects sized_train_test_split
           (just (mkArray NumpyArray float32 [2; 3] C_order,
                  mkArray NumpyArray float32 [2; 1] C_order)) [9]
           (mkArray NumpyArray float32 [2; 3] C_order)
           (mkArray NumpyArray float32 [2; 1] C_order) [9]);
    reflexivity.
Defined.

Lemma split_datasets_passes_untyped_test_size_witness :
  check_test_size 5 (TsNpInt 0) = ret tt
  /\ sample (split_datasets sized_train_test_split
               (just (mkArray NumpyArray float32 [5; 3] C_order,
                      mkArray NumpyArray float32 [5; 1] C_order))
               (Some (just (TsNpInt 0)))) [4]
     = lift_call
         (sized_train_test_split
            (mkArray NumpyArray float32 [5; 3] C_order)
            (mkArray NumpyArray float32 [5; 1] C_order) (TsNpInt 0)) [4].
Proof.
  apply (split_datasets_passes_untyped_test_size sized_train_test_split
           (just (mkArray NumpyArray float32 [5; 3] C_order,
                  mkArray NumpyArray float32 [5; 1] C_order))
           (just (TsNpInt 0)) [4]
           (mkArray NumpyArray float32 [5; 3] C_order)
           (mkArray NumpyArray float32 [5; 1] C_order) [4] 5
           (TsNpInt 0) [4]).
  - reflexivity.
  - reflexivity.
  - lia.
  - reflexivity.
  - right. exists 0. reflexivity.
Defined.

(** ** Import placeholders *)

Section ImportPlaceholders.

Import ImportUtils.

Variable import_module : string -> call py_module.
Variable object_attrs : string -> bool.

Lemma MissingImport__init__msg symbol msg :
  _msg (MissingImport__init__ symbol msg) = scoped symbol msg.
Proof. destruct msg; reflexivity. Qed.

Lemma safe_import_outcome module msg :
  match import_module module with
  | Returns m => safe_import import_module module msg = Returns (Imported m)
  | Raises e =>
      if is_Exception e then
        safe_import import_module module msg
        = Returns (Placeholder (MissingImport__init__ module msg))
      else safe_import import_module module msg = Raises e
  end.
Proof.
  unfold safe_import. destruct (import_module module) as [m | e].
  - reflexivity.
  - destruct (is_Exception e); reflexivity.
Qed.

(** C9, as the code has it: [safe_import(module, msg)] lets no
    [Exception] escape (only an exception of the import that is not an
    [Exception], such as [KeyboardInterrupt], propagates): it returns the
    imported module when the import succeeds and a [MissingImport]
    placeholder when the import raises an [Exception].  Building the
    placeholder only stores the scoped message.  Every call of the
    placeholder, and every access to an attribute that ordinary lookup
    does not find (any name but [_msg] and the names of the class and of
    [object]), raises [UnavailableImportError] with that message. *)
Theorem safe_import_placeholder module msg :
  (forall m,
     import_module module = Returns m ->
     safe_import import_module module msg = Returns (Imported m))
  /\ (forall e,
        import_module module = Raises e -> is_Exception e = true ->
        safe_import import_module module msg
        = Returns (Placeholder (MissingImport__init__ module msg)))
  /\ (forall e,
        safe_import import_module module msg = Raises e ->
        is_Exception e = false /\ import_module module = Raises e)
  /\ _msg (MissingImport__init__ module msg) = scoped module msg
  /\ (forall (Args : Type) (args : Args),
        MissingImport__call__ (MissingImport__init__ module msg) args
        = Raises (UnavailableImportError (scoped module msg)))
  /\ (forall name,
        name <> "_msg"%string ->
        name_in name MissingImport_class_dict = false ->
        object_attrs name = false ->
        getattr object_attrs (MissingImport__init__ module msg) name
        = Raises (UnavailableImportError (scoped module msg))).
Proof.
  pose proof (safe_import_outcome module msg) as Hout.
  repeat split.
  - intros m Hm. rewrite Hm in Hout. exact Hout.
  - intros e He Hexc. rewrite He, Hexc in Hout. exact Hout.
  - destruct (import_module module) as [m | e0]; [congruence|].
    destruct (is_Exception e0) eqn:E; [congruence|]. congruence.
  - destruct (import_module module) as [m | e0]; [congruence|].
    destruct (is_Exception e0) eqn:E; congruence.
  - apply MissingImport__init__msg.
  - intros Args args. unfold MissingImport__call__.
    rewrite MissingImport__init__msg. reflexivity.
  - intros name Hname Hclass Hobj. unfold getattr.
    apply String.eqb_neq in Hname. rewrite Hname, Hclass, Hobj.
    unfold MissingImport__getattr__.
    rewrite MissingImport__init__msg. reflexivity.
Qed.

End ImportPlaceholders.

Lemma safe_import_placeholder_witness :
  ImportUtils.safe_import
    (fun _ => Raises (ImportError "No module named 'numba'"%string))
    "numba"%string None
  = Returns (ImportUtils.Placeholder
               (ImportUtils.MissingImport__init__ "numba"%string None))
  /\ ImportUtils.getattr (fun _ => false)
       (ImportUtils.MissingImport__init__ "numba"%string None)
       "__version__"%string
     = Raises (UnavailableImportError "numba could not be imported"%string).
Proof.
  split.
  - apply (proj1 (proj2 (safe_import_placeholder
             (fun _ => Raises (ImportError "No module named 'numba'"%string))
             (fun _ => false) "numba"%string None))
             (ImportError "No module named 'numba'"%string));
      reflexivity.
  - apply (proj2 (proj2 (proj2 (proj2 (proj2 (safe_import_placeholder
             (fun _ => Raises (ImportError "No module named 'numba'"%string))
             (fun _ => false) "numba"%string None)))))
             "__version__"%string).
    + discriminate.
    + reflexivity.
    + reflexivity.
Defined.

(** C9, as stated, fails on both counts: reading [_msg] on a placeholder
    returns the message instead of raising, and an import interrupted by
    [KeyboardInterrupt] makes [safe_import] raise. *)
Lemma placeholder_msg_access_and_interrupt_escape :
  ImportUtils.getattr (fun _ => false)
    (ImportUtils.MissingImport__init__ "numba"%string None) "_msg"%string
  = Returns (ImportUtils.AttrStr "numba could not be imported"%string)
  /\ ImportUtils.safe_import (fun _ => Raises KeyboardInterrupt)
       "numba"%string None
     = Raises KeyboardInterrupt.
Proof. split; reflexivity. Qed.

(** * Further properties of the strategies *)

(** ** Primitive generators *)

Lemma sampled_from_In {A} (a : A) (l : list A) src v src1 :
  sampled_from (a :: l) src = Value (v, src1) -> In v (a :: l).
Proof.
  unfold sampled_from. intros H. bind_inv H. injection H as <- _.
  assert (Hlen : 0 < Z.of_nat (List.length (a :: l))) by (simpl; lia).
  pose proof (Z.mod_pos_bound a0 _ Hlen) as Hmod.
  assert (Hidx : (Z.to_nat (a0 mod Z.of_nat (List.length (a :: l)))
                  < List.length (a :: l))%nat) by lia.
  exact (nth_In (a :: l) a Hidx).
Qed.

Lemma sampled_from_domain {A} (a : A) (l : list A) src :
  exists v src1, sampled_from (a :: l) src = Value (v, src1) /\ In v (a :: l).
Proof.
  destruct (sampled_from_total a l src) as (v & src1 & Hv).
  exists v, src1. split; [exact Hv|]. exact (sampled_from_In _ _ _ _ _ Hv).
Qed.

(** The three primitive generators never reject and never raise: every
    draw yields a member of the generator's own domain list. *)
Theorem primitive_generators_stay_in_domain src :
  (exists v src1,
     sample cuml_array_input_types src = Value (v, src1)
     /\ In v _CUML_ARRAY_INPUT_TYPES)
  /\ (exists v src1,
        sample cuml_array_dtypes src = Value (v, src1)
        /\ In v _CUML_ARRAY_DTYPES)
  /\ (exists v src1,
        sample cuml_array_orders src = Value (v, src1)
        /\ In v _CUML_ARRAY_ORDERS).
Proof. repeat split; apply sampled_from_domain. Qed.

(** ** Array materializer *)

Lemma create_cuml_array_input_rejected_iff it dt s o src :
  create_cuml_array_input it dt s o src = Rejected
  <-> input_type_is it "series"
      && (dtype_in dt _UNSUPPORTED_CUDF_DTYPES || multidimensional s) = true.
Proof.
  unfold create_cuml_array_input, bind, assume.
  destruct (input_type_is it "series"
            && (dtype_in dt _UNSUPPORTED_CUDF_DTYPES || multidimensional s))
    eqn:E; cbv [negb]; unfold ret, throw.
  - split; intros _; reflexivity.
  - split; [|intros H; discriminate H].
    destruct (input_type_is it "numpy"); [discriminate|].
    destruct (input_type_is it "series"); [discriminate|].
    destruct (match it with Some _ => false | None => true end
              || input_type_is it "cupy"); discriminate.
Qed.

Lemma input_type_is_eq it t : input_type_is it t = true <-> it = Some t.
Proof.
  destruct it as [u|]; simpl.
  - rewrite String.eqb_eq. split; [intros ->; reflexivity | congruence].
  - split; discriminate.
Qed.

Lemma dtype_in_unsupported_iff dt :
  dtype_in dt _UNSUPPORTED_CUDF_DTYPES = true
  <-> In dt [uint8; uint16; uint32; uint64; float16].
Proof.
  split; [|apply dtype_in_unsupported].
  destruct dt; simpl; intros H; try discriminate H; tauto.
Qed.

(** [create_cuml_array_input] rejects exactly the unsupported ['series']
    combinations: the input type is ['series'] and the dtype is one of
    [uint8, uint16, uint32, uint64, float16] or the shape is a tuple with
    two or more axes larger than 1.  Every other combination, whatever
    the input type, is never rejected. *)
Theorem create_cuml_array_input_rejects_exactly it dt s o src :
  create_cuml_array_input it dt s o src = Rejected
  <-> it = Some "series"%string
      /\ (In dt [uint8; uint16; uint32; uint64; float16]
          \/ exists dims,
               s = ShapeTuple dims
               /\ (2 <= List.length
                          (filter (fun d => (1 <? d)%Z) dims))%nat).
Proof.
  rewrite create_cuml_array_input_rejected_iff, andb_true_iff, orb_true_iff.
  rewrite input_type_is_eq, dtype_in_unsupported_iff.
  split; intros [Hit Hbad]; (split; [exact Hit|]);
    destruct Hbad as [Hdt | Hm]; try (left; exact Hdt); right.
  - destruct s as [dims | n]; simpl in Hm; [|discriminate].
    exists dims. split; [reflexivity|]. apply Z.ltb_lt in Hm. lia.
  - destruct Hm as (dims & -> & Hlen). simpl. apply Z.ltb_lt. lia.
Qed.

Lemma create_cuml_array_input_rejects_exactly_witness :
  create_cuml_array_input (Some "series"%string) uint8 (ShapeInt 3) C_order
    [4] = Rejected.
Proof.
  apply (proj2 (create_cuml_array_input_rejects_exactly
                  (Some "series"%string) uint8 (ShapeInt 3) C_order [4])).
  split; [reflexivity | left; simpl; tauto].
Defined.

Lemma create_cuml_array_input_returns_requested it dt s o src a src1 :
  create_cuml_array_input it dt s o src = Value (a, src1) ->
  src1 = src
  /\ array_dtype a = dt
  /\ array_shape a = shape_tuple s
  /\ array_order a = o
  /\ ((it = Some "numpy"%string /\ array_container a = NumpyArray)
      \/ (it = Some "series"%string /\ array_container a = CudfSeries)
      \/ ((it = Some "cupy"%string \/ it = None)
          /\ array_container a = CupyArray)).
Proof.
  unfold create_cuml_array_input, bind, assume, ret, throw.
  destruct (negb _); [|discriminate].
  destruct (input_type_is it "numpy") eqn:En.
  { intros H. injection H as <- <-. apply input_type_is_eq in En.
    repeat split; auto. }
  destruct (input_type_is it "series") eqn:Es.
  { intros H. injection H as <- <-. apply input_type_is_eq in Es.
    repeat split; auto. }
  destruct it as [t|]; simpl.
  - destruct (String.eqb t "cupy") eqn:Ec; [|discriminate].
    intros H. injection H as <- <-. apply String.eqb_eq in Ec. subst t.
    repeat split; auto.
  - intros H. injection H as <- <-. repeat split; auto.
Qed.

(** Every array [create_cuml_array_input] returns is built from the one
    array that [cp.ones(shape, dtype=dtype, order=order)] returned, and no
    choice of the engine is consumed: for ['numpy'] it is what
    [np.array(cp.asnumpy(array), dtype=dtype, order=order)] returned, for
    ['series'] what [cudf.Series(array)] returned, and then the dtype is
    supported and the shape has at most one axis larger than 1, and for
    ['cupy'] and [None] it is the [cp.ones] array itself, unconverted. *)
Theorem create_cuml_array_input_conversions
    ones asnumpy_array Series it dt s o src a src1 :
  create_cuml_array_input_on ones asnumpy_array Series it dt s o src
    = Value (a, src1) ->
  src1 = src
  /\ exists a0,
       ones s dt o = Returns a0
       /\ ((it = Some "numpy"%string /\ asnumpy_array a0 dt o = Returns a)
           \/ (it = Some "series"%string
               /\ Series a0 = Returns a
               /\ dtype_in dt _UNSUPPORTED_CUDF_DTYPES = false
               /\ multidimensional s = false)
           \/ ((it = Some "cupy"%string \/ it = None) /\ a = a0)).
Proof.
  unfold create_cuml_array_input_on, bind, assume, lift_call.
  destruct (negb _) eqn:Hguard; [|discriminate].
  destruct (ones s dt o) as [a0|e0]; [|discriminate].
  unfold ret at 1.
  destruct (input_type_is it "numpy") eqn:En.
  { apply input_type_is_eq in En.
    destruct (asnumpy_array a0 dt o) as [a1|e1] eqn:Ea; [|discriminate].
    unfold ret. intros H. injection H as <- <-.
    split; [reflexivity|]. exists a0. split; [reflexivity|].
    left. split; [exact En | exact Ea]. }
  destruct (input_type_is it "series") eqn:Es.
  { apply input_type_is_eq in Es.
    destruct (Series a0) as [a1|e1] eqn:Ea; [|discriminate].
    unfold ret. intros H. injection H as <- <-.
    split; [reflexivity|]. exists a0. split; [reflexivity|].
    right. left. simpl in Hguard.
    apply negb_true_iff in Hguard. apply orb_false_iff in Hguard.
    destruct Hguard as [Hd Hm]. repeat split; assumption. }
  destruct it as [t|]; simpl.
  - destruct (String.eqb t "cupy") eqn:Ec; [|discriminate].
    unfold ret. intros H. injection H as <- <-. apply String.eqb_eq in Ec.
    subst t. split; [reflexivity|]. exists a0. split; [reflexivity|].
    right. right. split; [left|]; reflexivity.
  - unfold ret. intros H. injection H as <- <-.
    split; [reflexivity|]. exists a0. split; [reflexivity|].
    right. right. split; [right|]; reflexivity.
Qed.

Lemma create_cuml_array_input_conversions_witness :
  [3] = [3]
  /\ exists a0,
       checked_cp_ones (ShapeTuple [4; 1]) int16 F_order = Returns a0
       /\ ((Some "numpy"%string = Some "numpy"%string
            /\ Returns (np_array_of a0 int16 F_order)
               = Returns (mkArray NumpyArray int16 [4; 1] F_order))
           \/ (Some "numpy"%string = Some "series"%string
               /\ Returns (cudf_Series a0)
                  = Returns (mkArray NumpyArray int16 [4; 1] F_order)
               /\ dtype_in int16 _UNSUPPORTED_CUDF_DTYPES = false
               /\ multidimensional (ShapeTuple [4; 1]) = false)
           \/ ((Some "numpy"%string = Some "cupy"%string
                \/ Some "numpy"%string = None)
               /\ mkArray NumpyArray int16 [4; 1] F_order = a0)).
Proof.
  apply (create_cuml_array_input_conversions checked_cp_ones
           (fun a dt o => Returns (np_array_of a dt o))
           (fun a => Returns (cudf_Series a))
           (Some "numpy"%string) int16 (ShapeTuple [4; 1]) F_order [3]
           (mkArray NumpyArray int16 [4; 1] F_order) [3]).
  reflexivity.
Defined.

Lemma cuml_arrays_Value_inv input_types dtypes shapes orders src a src1 :
  sample (cuml_arrays input_types dtypes shapes orders) src
    = Value (mkCumlArray a, src1) ->
  exists it s0 dt s2 s s3 o,
    input_types src = Value (it, s0)
    /\ dtypes s0 = Value (dt, s2)
    /\ shapes s2 = Value (s, s3)
    /\ orders s3 = Value (o, src1)
    /\ create_cuml_array_input it dt s o src1 = Value (a, src1).
Proof.
  simpl. unfold cuml_arrays_definition, draw. intros H.
  apply bind_Value_inv in H. destruct H as (it & s0 & Hit & H).
  apply bind_Value_inv in H. destruct H as (dt & s2 & Hdt & H).
  apply bind_Value_inv in H. destruct H as (s & s3 & Hs & H).
  apply bind_Value_inv in H. destruct H as (o & s4 & Ho & H).
  apply bind_Value_inv in H. destruct H as (a' & s5 & Ha & H).
  injection H as <- <-.
  pose proof (create_cuml_array_input_returns_requested _ _ _ _ _ _ _ Ha)
    as [-> _].
  exists it, s0, dt, s2, s, s3, o. auto.
Qed.

(** Whatever strategies [cuml_arrays] is given, a cudf series it yields
    never has one of the dtypes [uint8, uint16, uint32, uint64, float16]
    and never has two or more axes larger than 1. *)
Theorem cuml_arrays_series_are_supported
    input_types dtypes shapes orders src a src1 :
  sample (cuml_arrays input_types dtypes shapes orders) src
    = Value (mkCumlArray a, src1) ->
  array_container a = CudfSeries ->
  ~ In (array_dtype a) [uint8; uint16; uint32; uint64; float16]
  /\ Z.of_nat (List.length (filter (fun d => 1 <? d) (array_shape a))) <= 1.
Proof.
  intros H Hc. apply cuml_arrays_Value_inv in H.
  destruct H as (it & s0 & dt & s2 & s & s3 & o & _ & _ & _ & _ & Ha).
  pose proof (create_cuml_array_input_returns_requested _ _ _ _ _ _ _ Ha)
    as (_ & Hdt & Hsh & _ & Hk).
  assert (Hit : it = Some "series"%string).
  { destruct Hk as [[_ Hk] | [[Hit _] | [_ Hk]]]; congruence. }
  subst it.
  assert (Hnot : create_cuml_array_input (Some "series"%string) dt s o src1
                 <> Rejected) by (rewrite Ha; discriminate).
  rewrite create_cuml_array_input_rejects_exactly in Hnot.
  rewrite Hdt, Hsh. split.
  - intros Hin. apply Hnot. split; [reflexivity | left; exact Hin].
  - destruct s as [dims | n]; simpl.
    + destruct (le_lt_dec
                  (List.length (filter (fun d => (1 <? d)%Z) dims)) 1)
        as [Hle | Hgt]; [lia|].
      exfalso. apply Hnot. split; [reflexivity|]. right.
      exists dims. split; [reflexivity | lia].
    + destruct (1 <? n); simpl; lia.
Qed.

Lemma cuml_arrays_series_are_supported_witness :
  ~ In (array_dtype (mkArray CudfSeries float32 [1; 4] F_order))
      [uint8; uint16; uint32; uint64; float16]
  /\ Z.of_nat
       (List.length
          (filter (fun d => 1 <? d)
             (array_shape (mkArray CudfSeries float32 [1; 4] F_order))))
     <= 1.
Proof.
  apply (cuml_arrays_series_are_supported default_input_types default_dtypes
           default_shapes default_orders [2; 1; 1; 0; 3; 0]
           (mkArray CudfSeries float32 [1; 4] F_order) []);
    reflexivity.
Defined.

(** ** Regression datasets, continued *)

Section RegressionProperties.

Variable make_regression : make_regression_kwargs -> call (array * array).

Lemma standard_regression_datasets_Value_inv dtypes n_samples n_features
    n_informative n_targets bias effective_rank tail_strength noise shuffle
    random_state src X y src1 :
  sample (standard_regression_datasets make_regression dtypes n_samples
            n_features n_informative n_targets bias effective_rank
            tail_strength noise shuffle random_state) src
    = Value ((X, y), src1) ->
  exists kw X0 y0 dt s1,
    standard_regression_datasets_kwargs n_samples n_features n_informative
      n_targets bias effective_rank tail_strength noise shuffle random_state
      src = Value (kw, s1)
    /\ make_regression kw = Returns (X0, y0)
    /\ dtypes s1 = Value (dt, src1)
    /\ X = astype X0 dt /\ y = astype y0 dt.
Proof.
  simpl. unfold standard_regression_datasets_definition, draw. intros H.
  apply bind_Value_inv in H. destruct H as (kw & s1 & Hkw & H).
  apply bind_Value_inv in H. destruct H as ([X0 y0] & s2 & Hmr & H).
  cbv beta iota zeta in H.
  apply lift_call_Value_inv in Hmr. simpl in Hmr. destruct Hmr as [Hmr ->].
  apply bind_Value_inv in H. destruct H as (dt & s3 & Hdt & H).
  injection H as <- <- <-.
  exists kw, X0, y0, dt, s1. auto.
Qed.

(** Every dataset [standard_regression_datasets] yields is the pair that
    [make_regression] returned with both arrays cast to one drawn dtype:
    [X] and [y] always have the same dtype, and their shapes are those
    [make_regression] produced for the drawn arguments. *)
Theorem standard_regression_datasets_cast_both dtypes n_samples n_features
    n_informative n_targets bias effective_rank tail_strength noise shuffle
    random_state src X y src1 :
  sample (standard_regression_datasets make_regression dtypes n_samples
            n_features n_informative n_targets bias effective_rank
            tail_strength noise shuffle random_state) src
    = Value ((X, y), src1) ->
  array_dtype X = array_dtype y
  /\ exists kw X0 y0 src0,
       standard_regression_datasets_kwargs n_samples n_features
         n_informative n_targets bias effective_rank tail_strength noise
         shuffle random_state src = Value (kw, src0)
       /\ make_regression kw = Returns (X0, y0)
       /\ dtypes src0 = Value (array_dtype X, src1)
       /\ array_shape X = array_shape X0
       /\ array_shape y = array_shape y0.
Proof.
  intros H. apply standard_regression_datasets_Value_inv in H.
  destruct H as (kw & X0 & y0 & dt & s1 & Hkw & Hmr & Hdt & -> & ->).
  split; [reflexivity|].
  exists kw, X0, y0, s1. simpl. auto.
Qed.

(** A failure of [make_regression] is surfaced as the exception it is,
    never turned into a rejection, and no dtype is drawn after it. *)
Theorem standard_regression_datasets_propagates_failure dtypes n_samples
    n_features n_informative n_targets bias effective_rank tail_strength
    noise shuffle random_state src kw src0 e :
  standard_regression_datasets_kwargs n_samples n_features n_informative
    n_targets bias effective_rank tail_strength noise shuffle random_state
    src = Value (kw, src0) ->
  make_regression kw = Raises e ->
  sample (standard_regression_datasets make_regression dtypes n_samples
            n_features n_informative n_targets bias effective_rank
            tail_strength noise shuffle random_state) src
  = Raised e.
Proof.
  intros Hkw Hmr. simpl. unfold standard_regression_datasets_definition.
  rewrite (bind_Value _ _ _ _ _ Hkw). unfold bind. rewrite Hmr. reflexivity.
Qed.

End RegressionProperties.

(** When [n_informative] is left unspecified and the drawn [n_features] is
    not negative, the number of informative features handed to
    [make_regression] never exceeds the number of features, and is at
    least 1 as soon as there is a feature. *)
Theorem regression_default_n_informative_within_features n_samples
    n_features n_targets bias effective_rank tail_strength noise shuffle
    random_state src kw src1 :
  standard_regression_datasets_kwargs n_samples n_features None n_targets
    bias effective_rank tail_strength noise shuffle random_state src
    = Value (kw, src1) ->
  0 <= kw_n_features kw ->
  0 <= kw_n_informative kw <= kw_n_features kw
  /\ (1 <= kw_n_features kw -> 1 <= kw_n_informative kw).
Proof.
  intros H Hn. destruct (kwargs_n_informative _ _ _ _ _ _ _ _ _ _ _ _ H)
    as (n & src0 & _ & Hf & Hi).
  rewrite Hf in *. apply (default_n_informative_bounds _ _ Hi). exact Hn.
Qed.

Lemma regression_default_n_informative_within_features_witness :
  0 <= kw_n_informative (mkKwargs 105 7 1 1 0 None (1 # 2) 0 true None)
    <= kw_n_features (mkKwargs 105 7 1 1 0 None (1 # 2) 0 true None)
  /\ (1 <= kw_n_features (mkKwargs 105 7 1 1 0 None (1 # 2) 0 true None) ->
      1 <= kw_n_informative
             (mkKwargs 105 7 1 1 0 None (1 # 2) 0 true None)).
Proof.
  apply (regression_default_n_informative_within_features
           (integers 100 200) (integers 0 200) (just 1) (just 0%Q) none
           (just (1 # 2)%Q) (just 0%Q) (just true) None [7; 5]
           (mkKwargs 105 7 1 1 0 None (1 # 2) 0 true None) []).
  - reflexivity.
  - simpl. lia.
Defined.

Lemma standard_regression_datasets_cast_both_witness :
  array_dtype (mkArray NumpyArray float32 [105; 137] C_order)
  = array_dtype (mkArray NumpyArray float32 [105] C_order)
  /\ exists kw X0 y0 src0,
       standard_regression_datasets_kwargs (integers 100 200)
         (integers 100 200) None (just 1) (just 0%Q) none (just (1 # 2)%Q)
         (just 0%Q) (just true) None [37; 5; 1] = Value (kw, src0)
       /\ shaped_make_regression kw = Returns (X0, y0)
       /\ floating_dtypes src0
          = Value (array_dtype
                     (mkArray NumpyArray float32 [105; 137] C_order), [])
       /\ array_shape (mkArray NumpyArray float32 [105; 137] C_order)
          = array_shape X0
       /\ array_shape (mkArray NumpyArray float32 [105] C_order)
          = array_shape y0.
Proof.
  apply (standard_regression_datasets_cast_both shaped_make_regression
           floating_dtypes (integers 100 200) (integers 100 200) None
           (just 1) (just 0%Q) none (just (1 # 2)%Q) (just 0%Q) (just true)
           None [37; 5; 1]
           (mkArray NumpyArray float32 [105; 137] C_order)
           (mkArray NumpyArray float32 [105] C_order) []).
  reflexivity.
Defined.

Lemma standard_regression_datasets_propagates_failure_witness :
  sample (standard_regression_datasets shaped_make_regression
            floating_dtypes (just (-3)) (just 10) None (just 1) (just 0%Q)
            none (just (1 # 2)%Q) (just 0%Q) (just true) None) [2]
  = Raised (ValueError "negative dimensions are not allowed"%string).
Proof.
  apply (standard_regression_datasets_propagates_failure
           shaped_make_regression floating_dtypes (just (-3)) (just 10) None
           (just 1) (just 0%Q) none (just (1 # 2)%Q) (just 0%Q) (just true)
           None [2] (mkKwargs (-3) 10 1 1 0 None (1 # 2) 0 true None) [2]);
    reflexivity.
Defined.

(** ** Combined datasets *)

Lemma one_of_selects {A} (strategies : list (Strategy A)) src :
  strategies <> [] ->
  exists s src', In s strategies /\ one_of strategies src = s src'.
Proof.
  destruct strategies as [|s0 rest]; [congruence|]. intros _.
  unfold one_of.
  destruct (next_choice_total src) as (c & src' & Hc).
  rewrite (bind_Value _ _ _ _ _ Hc).
  exists (nth (Z.to_nat (c mod Z.of_nat (List.length (s0 :: rest))))
            (s0 :: rest) s0), src'.
  split; [|reflexivity].
  assert (Hlen : 0 < Z.of_nat (List.length (s0 :: rest))) by (simpl; lia).
  pose proof (Z.mod_pos_bound c _ Hlen) as Hmod.
  apply nth_In. lia.
Qed.

Lemma datasets_strategies_nonempty d datasets dtypes n_samples n_features l :
  datasets_strategies (d :: datasets) dtypes n_samples n_features = Returns l ->
  l <> [].
Proof.
  simpl. destruct (d dtypes n_samples n_features); [|discriminate].
  destruct (datasets_strategies datasets dtypes n_samples n_features);
    [|discriminate].
  intros H. injection H as <-. discriminate.
Qed.

Lemma datasets_strategies_In datasets dtypes n_samples n_features l s :
  datasets_strategies datasets dtypes n_samples n_features = Returns l ->
  In s l ->
  exists d, In d datasets /\ d dtypes n_samples n_features = Returns s.
Proof.
  revert l. induction datasets as [|d rest IH]; intros l; simpl.
  - intros H. injection H as <-. intros [].
  - destruct (d dtypes n_samples n_features) as [s0|] eqn:Ed; [|discriminate].
    destruct (datasets_strategies rest dtypes n_samples n_features)
      as [l0|]; [|discriminate].
    intros H. injection H as <-. intros [<- | Hin].
    + exists d. auto.
    + destruct (IH l0 eq_refl Hin) as (d' & Hd' & Hs). exists d'. auto.
Qed.

Lemma combined_sample_selects d datasets name doc dtypes n_samples
    n_features strategies src :
  datasets_strategies (d :: datasets) dtypes n_samples n_features
    = Returns strategies ->
  exists d' s src',
    In d' (d :: datasets)
    /\ d' dtypes n_samples n_features = Returns s
    /\ sample (fn_call (combined_datasets_strategy (d :: datasets)
                          name doc) dtypes n_samples n_features) src
       = s src'.
Proof.
  intros Hb.
  pose proof (datasets_strategies_nonempty _ _ _ _ _ _ Hb) as Hne.
  destruct (one_of_selects strategies src Hne) as (s & src' & Hin & Hs).
  destruct (datasets_strategies_In _ _ _ _ _ _ Hb Hin) as (d' & Hd' & Hc).
  exists d', s, src'. split; [exact Hd'|]. split; [exact Hc|].
  simpl. unfold combined_strategy_definition, draw, one_of_generated.
  rewrite Hb. exact Hs.
Qed.

(** Building a combined strategy never calls the dataset functions and
    never raises; the name defaults to ["datasets"] and neither name nor
    doc changes what is drawn.  When every dataset function builds its
    strategy, each draw of the combined strategy is a draw from exactly
    one of them, built with the shared [dtypes], [n_samples] and
    [n_features]. *)
Theorem combined_datasets_strategy_draws_one_source
    d datasets name doc dtypes n_samples n_features strategies src :
  datasets_strategies (d :: datasets) dtypes n_samples n_features
    = Returns strategies ->
  fn_name (combined_datasets_strategy (d :: datasets) None doc)
    = "datasets"%string
  /\ fn_call (combined_datasets_strategy (d :: datasets) name doc)
     = fn_call (combined_datasets_strategy (d :: datasets) None None)
  /\ exists d' s src',
       In d' (d :: datasets)
       /\ d' dtypes n_samples n_features = Returns s
       /\ sample (fn_call (combined_datasets_strategy (d :: datasets)
                             name doc) dtypes n_samples n_features) src
          = s src'.
Proof.
  intros Hb. split; [reflexivity|]. split; [reflexivity|].
  exact (combined_sample_selects _ _ _ _ _ _ _ _ _ Hb).
Qed.

(** A dataset function that raises while building its strategy makes
    every draw of the combined strategy raise, also when another source
    would have been selected: the exception itself, unless it is a
    [TypeError], which hypothesis' [one_of] swallows and replaces by an
    [InvalidArgument].  Building the combined strategy itself still
    succeeds. *)
Theorem combined_datasets_strategy_failing_source
    datasets name doc dtypes n_samples n_features e src :
  datasets_strategies datasets dtypes n_samples n_features = Raises e ->
  (exists s,
     fn_call (combined_datasets_strategy datasets name doc) dtypes n_samples
       n_features = Returns s)
  /\ (is_TypeError e = false ->
      sample (fn_call (combined_datasets_strategy datasets name doc) dtypes
                n_samples n_features) src
      = Raised e)
  /\ (is_TypeError e = true ->
      exists msg,
        sample (fn_call (combined_datasets_strategy datasets name doc) dtypes
                  n_samples n_features) src
        = Raised (InvalidArgument msg)).
Proof.
  intros Hb. split; [eexists; reflexivity|].
  simpl. unfold combined_strategy_definition, draw, one_of_generated.
  rewrite Hb. split; intros ->.
  - reflexivity.
  - eexists. reflexivity.
Qed.

Lemma combined_datasets_strategy_draws_one_source_witness :
  fn_name (combined_datasets_strategy
             [standard_datasets_function;
              standard_regression_datasets_function shaped_make_regression]
             None None)
    = "datasets"%string
  /\ fn_call (combined_datasets_strategy
                [standard_datasets_function;
                 standard_regression_datasets_function shaped_make_regression]
                (Some "mine"%string) None)
     = fn_call (combined_datasets_strategy
                  [standard_datasets_function;
                   standard_regression_datasets_function
                     shaped_make_regression] None None)
  /\ exists d' s src',
       In d' [standard_datasets_function;
              standard_regression_datasets_function shaped_make_regression]
       /\ d' floating_dtypes (integers 0 200) (integers 0 200) = Returns s
       /\ sample (fn_call (combined_datasets_strategy
                             [standard_datasets_function;
                              standard_regression_datasets_function
                                shaped_make_regression]
                             (Some "mine"%string) None)
                    floating_dtypes (integers 0 200) (integers 0 200))
            [1; 4; 2; 0]
          = s src'.
Proof.
  apply (combined_datasets_strategy_draws_one_source
           standard_datasets_function
           [standard_regression_datasets_function shaped_make_regression]
           (Some "mine"%string) None floating_dtypes (integers 0 200)
           (integers 0 200)
           [standard_datasets_definition floating_dtypes (integers 0 200)
              (integers 0 200) (just 1);
            standard_regression_datasets_definition shaped_make_regression
              floating_dtypes (integers 0 200) (integers 0 200) None (just 1)
              (just 0%Q) none (just (1 # 2)%Q) (just 0%Q) (just true) None]
           [1; 4; 2; 0]).
  reflexivity.
Defined.

Lemma combined_datasets_strategy_failing_source_witness :
  sample (fn_call (combined_datasets_strategy
                     [standard_datasets_function;
                      fun _ _ _ => Raises (ValueError "unsupported"%string)]
                     None None)
            floating_dtypes (integers 0 200) (integers 0 200)) [0; 3]
  = Raised (ValueError "unsupported"%string)
  /\ exists msg,
       sample (fn_call (combined_datasets_strategy
                          [standard_datasets_function;
                           fun _ _ _ =>
                             Raises (TypeError "missing argument"%string)]
                          None None)
                 floating_dtypes (integers 0 200) (integers 0 200)) [0; 3]
       = Raised (InvalidArgument msg).
Proof.
  split.
  - apply (proj1 (proj2 (combined_datasets_strategy_failing_source
             [standard_datasets_function;
              fun _ _ _ => Raises (ValueError "unsupported"%string)]
             None None floating_dtypes (integers 0 200) (integers 0 200)
             (ValueError "unsupported"%string) [0; 3] eq_refl)) eq_refl).
  - apply (proj2 (proj2 (combined_datasets_strategy_failing_source
             [standard_datasets_function;
              fun _ _ _ => Raises (TypeError "missing argument"%string)]
             None None floating_dtypes (integers 0 200) (integers 0 200)
             (TypeError "missing argument"%string) [0; 3] eq_refl)) eq_refl).
Defined.

Lemma len_of_astype a dt : len_of (astype a dt) = len_of a.
Proof. reflexivity. Qed.

Section RegressionDatasetsProperties.

Variable make_regression : make_regression_kwargs -> call (array * array).

(** The row contract of the synthesizer: both arrays it returns have
    [n_samples] rows. *)
Hypothesis make_regression_rows :
  forall kw X y,
    make_regression kw = Returns (X, y) ->
    len_of X = Some (kw_n_samples kw) /\ len_of y = Some (kw_n_samples kw).

(** [regression_datasets] carries the name ["regression_datasets"], and in
    every dataset it yields, from either of its two sources, [X] and [y]
    have the same number of rows. *)
Theorem regression_datasets_leading_dimension
    dtypes n_samples n_features src X y src1 :
  sample (fn_call (regression_datasets make_regression) dtypes n_samples
            n_features) src = Value ((X, y), src1) ->
  fn_name (regression_datasets make_regression)
    = "regression_datasets"%string
  /\ exists n, len_of X = Some n /\ len_of y = Some n.
Proof.
  intros H. split; [reflexivity|].
  destruct (combined_sample_selects standard_datasets_function
              [standard_regression_datasets_function make_regression]
              (Some "regression_datasets"%string)
              (Some (fn_doc (regression_datasets make_regression)))
              dtypes n_samples n_features _ src eq_refl)
    as (d' & s & src' & Hin & Hd' & Hs).
  unfold regression_datasets in H. simpl fn_doc in Hs.
  rewrite Hs in H. clear Hs.
  destruct Hin as [<- | [<- | []]].
  - injection Hd' as <-.
    destruct (standard_datasets_shapes _ _ _ _ _ _ _ _ H)
      as (xs & ys & nt & src0 & _ & HX & Hy).
    exists xs. unfold len_of. rewrite HX, Hy. auto.
  - injection Hd' as <-.
    apply (standard_regression_datasets_Value_inv make_regression) in H.
    destruct H as (kw & X0 & y0 & dt & s1 & _ & Hmr & _ & -> & ->).
    destruct (make_regression_rows _ _ _ Hmr) as [HX Hy].
    exists (kw_n_samples kw). rewrite !len_of_astype. auto.
Qed.

End RegressionDatasetsProperties.

Lemma shaped_make_regression_rows kw X y :
  shaped_make_regression kw = Returns (X, y) ->
  len_of X = Some (kw_n_samples kw) /\ len_of y = Some (kw_n_samples kw).
Proof.
  unfold shaped_make_regression.
  destruct (_ || _); [discriminate|].
  intros H. injection H as <- <-. unfold len_of. simpl.
  destruct (kw_n_targets kw =? 1); auto.
Qed.

Lemma regression_datasets_leading_dimension_witness :
  fn_name (regression_datasets shaped_make_regression)
    = "regression_datasets"%string
  /\ exists n,
       len_of (mkArray NumpyArray float16 [9; 4] C_order) = Some n
       /\ len_of (mkArray NumpyArray float16 [9] C_order) = Some n.
Proof.
  apply (regression_datasets_leading_dimension shaped_make_regression
           shaped_make_regression_rows floating_dtypes (integers 0 200)
           (integers 0 200) [1; 4; 9; 0]
           (mkArray NumpyArray float16 [9; 4] C_order)
           (mkArray NumpyArray float16 [9] C_order) []).
  reflexivity.
Defined.

(** ** Train/test splits, continued *)

Section SplitExtras.

Variable train_test_split : array -> array -> test_size -> call split.

(** A dataset with at most one row is always rejected, whatever test
    sizes were supplied: neither the test-size strategy nor
    [train_test_split] is consulted. *)
Theorem split_datasets_rejects_small_datasets
    datasets test_sizes src X y src0 n :
  datasets src = Value ((X, y), src0) ->
  len_of X = Some n ->
  n <= 1 ->
  sample (split_datasets train_test_split datasets test_sizes) src
  = Rejected.
Proof.
  intros Hd Hn Hle. simpl. unfold split_datasets_definition, draw.
  rewrite (bind_Value _ _ _ _ _ Hd). cbv beta iota zeta.
  unfold py_len. rewrite Hn. unfold bind at 1, ret at 1.
  apply bind_Rejected. unfold assume.
  replace (1 <? n) with false by (symmetry; apply Z.ltb_ge; lia).
  reflexivity.
Qed.

(** An integer test size is accepted exactly when it is larger than 1 and
    smaller than the number of rows: a count of 1 (or less) or of all the
    rows (or more) is rejected, and any other count is handed to
    [train_test_split], whose outcome is the outcome of the attempt. *)
Theorem split_datasets_integer_test_size
    datasets test_sizes src X y src0 n k src1 :
  datasets src = Value ((X, y), src0) ->
  len_of X = Some n ->
  1 < n ->
  test_sizes src0 = Value (TsInt k, src1) ->
  (k <= 1 \/ n <= k ->
   sample (split_datasets train_test_split datasets (Some test_sizes)) src
   = Rejected)
  /\ (1 < k < n ->
      sample (split_datasets train_test_split datasets (Some test_sizes)) src
      = lift_call (train_test_split X y (TsInt k)) src1).
Proof.
  intros Hd Hn Hgt Hts.
  rewrite (split_datasets_run _ _ _ _ _ _ _ _ Hd Hn Hgt). unfold sizes.
  rewrite (bind_Value _ _ _ _ _ Hts). simpl check_test_size.
  unfold bind, assume. split; intros Hk.
  - replace ((1 <? k) && (k <? n)) with false; [reflexivity|].
    symmetry. apply andb_false_iff.
    destruct Hk; [left; apply Z.ltb_ge | right; apply Z.ltb_ge]; lia.
  - replace ((1 <? k) && (k <? n)) with true; [reflexivity|].
    symmetry. apply andb_true_iff. split; apply Z.ltb_lt; lia.
Qed.

End SplitExtras.

(** With the default test sizes and more than one row, the count drawn
    lies between 1 and [len(X) - 1]; the attempt is rejected when it is 1
    and otherwise [train_test_split] is called with that count, which is
    then between 2 and [len(X) - 1].  No exception comes from
    [split_datasets] itself. *)
Theorem split_datasets_default_test_size
    (train_test_split : array -> array -> test_size -> call split)
    datasets src X y src0 n :
  datasets src = Value ((X, y), src0) ->
  len_of X = Some n ->
  1 < n ->
  exists k src1,
    integers 1 (n - 1) src0 = Value (k, src1)
    /\ 1 <= k <= n - 1
    /\ (k = 1 ->
        sample (split_datasets train_test_split datasets None) src
        = Rejected)
    /\ (2 <= k ->
        sample (split_datasets train_test_split datasets None) src
        = lift_call (train_test_split X y (TsInt k)) src1).
Proof.
  intros Hd Hn Hgt.
  destruct (integers_total 1 (n - 1) src0) as (k & src1 & Hk); [lia|].
  pose proof (integers_range _ _ _ _ _ Hk) as Hr.
  exists k, src1. split; [exact Hk|]. split; [exact Hr|].
  rewrite (split_datasets_run _ _ _ _ _ _ _ _ Hd Hn Hgt).
  unfold sizes, map_strategy. rewrite Z.max_r by lia.
  unfold bind. rewrite Hk. unfold ret. simpl check_test_size.
  unfold assume. split; intros Hk'.
  - subst k. reflexivity.
  - replace ((1 <? k) && (k <? n)) with true; [reflexivity|].
    symmetry. apply andb_true_iff. split; apply Z.ltb_lt; lia.
Qed.

Lemma split_datasets_default_test_size_witness :
  exists k src1,
    integers 1 (5 - 1) [6; 2] = Value (k, src1)
    /\ 1 <= k <= 5 - 1
    /\ (k = 1 ->
        sample (split_datasets sized_train_test_split
                  (just (mkArray NumpyArray float32 [5; 3] C_order,
                         mkArray NumpyArray float32 [5; 1] C_order)) None)
          [6; 2] = Rejected)
    /\ (2 <= k ->
        sample (split_datasets sized_train_test_split
                  (just (mkArray NumpyArray float32 [5; 3] C_order,
                         mkArray NumpyArray float32 [5; 1] C_order)) None)
          [6; 2]
        = lift_call
            (sized_train_test_split
               (mkArray NumpyArray float32 [5; 3] C_order)
               (mkArray NumpyArray float32 [5; 1] C_order) (TsInt k)) src1).
Proof.
  apply (split_datasets_default_test_size sized_train_test_split
           (just (mkArray NumpyArray float32 [5; 3] C_order,
                  mkArray NumpyArray float32 [5; 1] C_order)) [6; 2]
           (mkArray NumpyArray float32 [5; 3] C_order)
           (mkArray NumpyArray float32 [5; 1] C_order) [6; 2] 5).
  - reflexivity.
  - reflexivity.
  - lia.
Defined.

Lemma split_datasets_rejects_small_datasets_witness :
  sample (split_datasets sized_train_test_split
            (just (mkArray NumpyArray float32 [1; 3] C_order,
                   mkArray NumpyArray float32 [1; 1] C_order))
            (Some (just (TsFloat (1 # 2))))) [8]
  = Rejected.
Proof.
  apply (split_datasets_rejects_small_datasets sized_train_test_split
           (just (mkArray NumpyArray float32 [1; 3] C_order,
                  mkArray NumpyArray float32 [1; 1] C_order))
           (Some (just (TsFloat (1 # 2)))) [8]
           (mkArray NumpyArray float32 [1; 3] C_order)
           (mkArray NumpyArray float32 [1; 1] C_order) [8] 1).
  - reflexivity.
  - reflexivity.
  - lia.
Defined.

Lemma split_datasets_integer_test_size_witness :
  (4 <= 1 \/ 5 <= 4 ->
   sample (split_datasets sized_train_test_split
             (just (mkArray NumpyArray float32 [5; 3] C_order,
                    mkArray NumpyArray float32 [5; 1] C_order))
             (Some (just (TsInt 4)))) [] = Rejected)
  /\ (1 < 4 < 5 ->
      sample (split_datasets sized_train_test_split
                (just (mkArray NumpyArray float32 [5; 3] C_order,
                       mkArray NumpyArray float32 [5; 1] C_order))
                (Some (just (TsInt 4)))) []
      = lift_call
          (sized_train_test_split
             (mkArray NumpyArray float32 [5; 3] C_order)
             (mkArray NumpyArray float32 [5; 1] C_order) (TsInt 4)) []).
Proof.
  apply (split_datasets_integer_test_size sized_train_test_split
           (just (mkArray NumpyArray float32 [5; 3] C_order,
                  mkArray NumpyArray float32 [5; 1] C_order))
           (just (TsInt 4)) []
           (mkArray NumpyArray float32 [5; 3] C_order)
           (mkArray NumpyArray float32 [5; 1] C_order) [] 5 4 []).
  - reflexivity.
  - reflexivity.
  - lia.
  - reflexivity.
Defined.

(** * Properties of the import utilities *)

Lemma string_append_assoc (a b c : string) :
  ((a ++ b) ++ c = a ++ (b ++ c))%string.
Proof.
  induction a as [|ch a IH]; simpl; [reflexivity|]. rewrite IH. reflexivity.
Qed.

Section ImportProperties.

Import ImportUtils.

Variable symbol_value : Type.
Variable import_module : string -> call py_module.
Variable module_getattr : py_module -> string -> call symbol_value.

Lemma safe_import_from_outcome module symbol msg :
  match import_symbol import_module module_getattr module symbol with
  | Returns v =>
      safe_import_from import_module module_getattr module symbol msg
      = Returns (ImportedSymbol v)
  | Raises e =>
      if is_Exception e then
        safe_import_from import_module module_getattr module symbol msg
        = Returns (SymbolPlaceholder
                     (MissingImport__init__
                        (module ++ "." ++ symbol)%string msg))
      else
        safe_import_from import_module module_getattr module symbol msg
        = Raises e
  end.
Proof.
  unfold safe_import_from.
  destruct (import_symbol import_module module_getattr module symbol)
    as [v | e]; [reflexivity|].
  destruct (is_Exception e); reflexivity.
Qed.

(** [safe_import_from] returns the symbol when the module imports and has
    it; when the import fails, or the module imports but lacks the
    symbol, with any [Exception], it returns a placeholder whose message
    is [msg] or, by default, ["<module>.<symbol> could not be imported"].
    It raises only what is not an [Exception]. *)
Theorem safe_import_from_placeholder module symbol msg :
  (forall m v,
     import_module module = Returns m -> module_getattr m symbol = Returns v ->
     safe_import_from import_module module_getattr module symbol msg
     = Returns (ImportedSymbol v))
  /\ (forall e,
        is_Exception e = true ->
        import_module module = Raises e
        \/ (exists m,
              import_module module = Returns m
              /\ module_getattr m symbol = Raises e) ->
        exists p,
          safe_import_from import_module module_getattr module symbol msg
          = Returns (SymbolPlaceholder p)
          /\ _msg p
             = match msg with
               | Some text => text
               | None =>
                   (module ++ "." ++ symbol ++ " could not be imported")%string
               end)
  /\ (forall e,
        safe_import_from import_module module_getattr module symbol msg
        = Raises e ->
        is_Exception e = false).
Proof.
  pose proof (safe_import_from_outcome module symbol msg) as Hout.
  split; [|split].
  - intros m v Hm Hv. unfold import_symbol in Hout.
    rewrite Hm, Hv in Hout. exact Hout.
  - intros e Hexc Hfail.
    assert (Hsym : import_symbol import_module module_getattr module symbol
                   = Raises e).
    { unfold import_symbol. destruct Hfail as [-> | (m & -> & ->)];
        reflexivity. }
    rewrite Hsym, Hexc in Hout. eexists. split; [exact Hout|].
    destruct msg; simpl; [reflexivity|].
    rewrite string_append_assoc. reflexivity.
  - intros e He.
    destruct (import_symbol import_module module_getattr module symbol)
      as [v | e0]; [congruence|].
    destruct (is_Exception e0) eqn:E; congruence.
Qed.

End ImportProperties.

Lemma safe_import_from_placeholder_witness :
  exists p,
    ImportUtils.safe_import_from
      (fun _ => Returns (ImportUtils.Module_ "cupy"%string))
      (fun (_ : ImportUtils.py_module) (_ : string) =>
         @Raises nat (ValueError "no such attribute"%string))
      "cupy"%string "ndarray"%string None
    = Returns (ImportUtils.SymbolPlaceholder p)
    /\ ImportUtils._msg p = "cupy.ndarray could not be imported"%string.
Proof.
  apply (proj1 (proj2 (safe_import_from_placeholder nat
           (fun _ => Returns (ImportUtils.Module_ "cupy"%string))
           (fun _ _ => Raises (ValueError "no such attribute"%string))
           "cupy"%string "ndarray"%string None))
           (ValueError "no such attribute"%string)).
  - reflexivity.
  - right. exists (ImportUtils.Module_ "cupy"%string).
    split; reflexivity.
Defined.

Section BuildGuards.

Import ImportUtils.

Variable symbol_value : Type.
Variable import_module : string -> call py_module.
Variable module_getattr : py_module -> string -> call symbol_value.
Variable Self : Type.
Variable self : Self.

(** [gpu_only_import] guards the import on a CPU-only build only, and
    [cpu_only_import] on a CUDA build only.  Where the import is guarded,
    a module whose import raises an [Exception] becomes a placeholder,
    and calling the placeholder raises [UnavailableImportError] saying
    the module is not installed in CPU-only (respectively GPU-only)
    installations; where it is not guarded, the exception of the import
    is raised as it is. *)
Theorem build_guarded_imports module e :
  import_module module = Raises e ->
  is_Exception e = true ->
  gpu_only_import import_module true self module = Raises e
  /\ cpu_only_import import_module false self module = Raises e
  /\ (exists p,
        gpu_only_import import_module false self module
        = Returns (Placeholder p)
        /\ forall (Args : Type) (args : Args),
             MissingImport__call__ p args
             = Raises (UnavailableImportError
                 (module ++ " is not installed in CPU-only installations")))
  /\ (exists p,
        cpu_only_import import_module true self module
        = Returns (Placeholder p)
        /\ forall (Args : Type) (args : Args),
             MissingImport__call__ p args
             = Raises (UnavailableImportError
                 (module ++ " is not installed in GPU-only installations"))).
Proof.
  intros He Hexc.
  unfold gpu_only_import, cpu_only_import, plain_import, safe_import.
  rewrite He, Hexc. repeat split; try reflexivity.
  - eexists. split; [reflexivity|]. intros Args args. reflexivity.
  - eexists. split; [reflexivity|]. intros Args args. reflexivity.
Qed.

(** A module that imports is returned as it is by [gpu_only_import] and
    by [cpu_only_import], on either build: the guard changes nothing for
    an available module. *)
Theorem build_guards_return_available_modules module m built_with_cuda :
  import_module module = Returns m ->
  gpu_only_import import_module built_with_cuda self module
    = Returns (Imported m)
  /\ cpu_only_import import_module built_with_cuda self module
     = Returns (Imported m).
Proof.
  intros Hm.
  unfold gpu_only_import, cpu_only_import, plain_import, safe_import.
  rewrite Hm. destruct built_with_cuda; split; reflexivity.
Qed.

(** The [_from] variants guard the same builds: a symbol that cannot be
    imported (the module fails to import, or lacks the symbol) becomes,
    where the import is guarded, a placeholder saying
    ["<module>.<symbol> is not available in CPU-only installations"]
    (respectively GPU-only), and is an exception where it is not. *)
Theorem build_guarded_symbol_imports module symbol e :
  import_symbol import_module module_getattr module symbol = Raises e ->
  is_Exception e = true ->
  gpu_only_import_from import_module module_getattr true self module symbol
    = Raises e
  /\ cpu_only_import_from import_module module_getattr false self module
       symbol = Raises e
  /\ (exists p,
        gpu_only_import_from import_module module_getattr false self module
          symbol = Returns (SymbolPlaceholder p)
        /\ _msg p
           = (module ++ "." ++ symbol
              ++ " is not available in CPU-only installations")%string)
  /\ (exists p,
        cpu_only_import_from import_module module_getattr true self module
          symbol = Returns (SymbolPlaceholder p)
        /\ _msg p
           = (module ++ "." ++ symbol
              ++ " is not available in GPU-only installations")%string).
Proof.
  intros He Hexc.
  unfold gpu_only_import_from, cpu_only_import_from, plain_import_from,
    safe_import_from.
  rewrite He, Hexc. repeat split; try reflexivity.
  - eexists. split; reflexivity.
  - eexists. split; reflexivity.
Qed.

(** The module-level statement [numba = gpu_only_import('numba')] passes
    one argument to a function declared with the two parameters
    [(self, module)]: on every build, and whether or not numba can be
    imported, it raises [TypeError] and binds nothing. *)
Theorem numba_binding_raises_TypeError built_with_cuda :
  numba import_module built_with_cuda
  = Raises (TypeError
      "gpu_only_import() missing 1 required positional argument: 'module'").
Proof. reflexivity. Qed.

End BuildGuards.

Lemma build_guarded_imports_witness :
  ImportUtils.gpu_only_import
    (fun _ => Raises (ImportError "No module named 'numba'"%string))
    true tt "numba"%string
  = Raises (ImportError "No module named 'numba'"%string)
  /\ ImportUtils.cpu_only_import
       (fun _ => Raises (ImportError "No module named 'numba'"%string))
       false tt "numba"%string
     = Raises (ImportError "No module named 'numba'"%string)
  /\ (exists p,
        ImportUtils.gpu_only_import
          (fun _ => Raises (ImportError "No module named 'numba'"%string))
          false tt "numba"%string
        = Returns (ImportUtils.Placeholder p)
        /\ forall (Args : Type) (args : Args),
             ImportUtils.MissingImport__call__ p args
             = Raises (UnavailableImportError
                 ("numba" ++ " is not installed in CPU-only installations")))
  /\ (exists p,
        ImportUtils.cpu_only_import
          (fun _ => Raises (ImportError "No module named 'numba'"%string))
          true tt "numba"%string
        = Returns (ImportUtils.Placeholder p)
        /\ forall (Args : Type) (args : Args),
             ImportUtils.MissingImport__call__ p args
             = Raises (UnavailableImportError
                 ("numba" ++ " is not installed in GPU-only installations"))).
Proof.
  apply (build_guarded_imports
           (fun _ => Raises (ImportError "No module named 'numba'"%string))
           unit tt "numba"%string
           (ImportError "No module named 'numba'"%string));
    reflexivity.
Defined.

Lemma build_guards_return_available_modules_witness :
  ImportUtils.gpu_only_import
    (fun name => Returns (ImportUtils.Module_ name)) false tt "numba"%string
  = Returns (ImportUtils.Imported (ImportUtils.Module_ "numba"%string))
  /\ ImportUtils.cpu_only_import
       (fun name => Returns (ImportUtils.Module_ name)) false tt
       "numba"%string
     = Returns (ImportUtils.Imported (ImportUtils.Module_ "numba"%string)).
Proof.
  apply (build_guards_return_available_modules
           (fun name => Returns (ImportUtils.Module_ name)) unit tt
           "numba"%string (ImportUtils.Module_ "numba"%string) false).
  reflexivity.
Defined.

Lemma build_guarded_symbol_imports_witness :
  ImportUtils.gpu_only_import_from
    (fun _ => Raises (ImportError "No module named 'cupy'"%string))
    (fun (_ : ImportUtils.py_module) (_ : string) => Returns 0%nat)
    true tt "cupy"%string "ndarray"%string
  = Raises (ImportError "No module named 'cupy'"%string)
  /\ exists p,
       ImportUtils.gpu_only_import_from
         (fun _ => Raises (ImportError "No module named 'cupy'"%string))
         (fun (_ : ImportUtils.py_module) (_ : string) => Returns 0%nat)
         false tt "cupy"%string "ndarray"%string
       = Returns (ImportUtils.SymbolPlaceholder p)
       /\ ImportUtils._msg p
          = "cupy.ndarray is not available in CPU-only installations"%string.
Proof.
  pose proof (build_guarded_symbol_imports nat
                (fun _ => Raises (ImportError "No module named 'cupy'"%string))
                (fun _ _ => Returns 0%nat) unit tt
                "cupy"%string "ndarray"%string
                (ImportError "No module named 'cupy'"%string)
                eq_refl eq_refl) as (H1 & _ & H3 & _).
  split; [exact H1 | exact H3].
Defined.

(** ** Availability checks *)

Section AvailabilityProperties.

Import ImportUtils.

Variable import_module : string -> call py_module.

Lemma single_import_check name :
  try_except_ImportError
    (call_bind (imports import_module [name]) (fun _ => Returns true))
    (Returns false)
  = match import_module name with
    | Returns _ => Returns true
    | Raises e => if is_ImportError e then Returns false else Raises e
    end.
Proof.
  simpl. destruct (import_module name) as [m | e]; reflexivity.
Qed.

(** Each single-import availability check returns [True] when its module
    imports and [False] when the import raises [ImportError]; any other
    exception of the import (a broken installation) is raised to the
    caller. *)
Theorem single_import_checks f name :
  In (f, name)
     [(has_dask_cudf import_module, "dask_cudf"%string);
      (has_dask_sql import_module, "dask_sql"%string);
      (has_cupy import_module, "cupy"%string);
      (has_ucp import_module, "ucp"%string);
      (has_umap import_module, "umap"%string);
      (has_lightgbm import_module, "lightgbm"%string);
      (has_pytest_benchmark import_module, "pytest_benchmark"%string);
      (has_sklearn import_module, "sklearn"%string)] ->
  match import_module name with
  | Returns _ => f = Returns true
  | Raises e =>
      (is_ImportError e = true -> f = Returns false)
      /\ (is_ImportError e = false -> f = Raises e)
  end.
Proof.
  intros Hin.
  assert (Hf : f = match import_module name with
                   | Returns _ => Returns true
                   | Raises e =>
                       if is_ImportError e then Returns false else Raises e
                   end).
  { simpl in Hin.
    repeat (destruct Hin as [Heq | Hin];
            [injection Heq as <- <-; apply single_import_check|]).
    destruct Hin. }
  rewrite Hf. destruct (import_module name) as [m | e]; [reflexivity|].
  split; intros ->; reflexivity.
Qed.

(** [has_dask] is [True] exactly when [dask], [dask.distributed] and
    [dask.dataframe] all import, and it is [False] as soon as the first
    of them that fails raises [ImportError]; the later ones are then not
    imported. *)
Theorem has_dask_needs_all_three :
  (has_dask import_module = Returns true
   <-> (exists m, import_module "dask" = Returns m)
       /\ (exists m, import_module "dask.distributed" = Returns m)
       /\ (exists m, import_module "dask.dataframe" = Returns m))
  /\ (forall e,
        is_ImportError e = true ->
        import_module "dask" = Raises e ->
        has_dask import_module = Returns false)
  /\ (forall m e,
        is_ImportError e = true ->
        import_module "dask" = Returns m ->
        import_module "dask.distributed" = Raises e ->
        has_dask import_module = Returns false)
  /\ (forall m1 m2 e,
        is_ImportError e = true ->
        import_module "dask" = Returns m1 ->
        import_module "dask.distributed" = Returns m2 ->
        import_module "dask.dataframe" = Raises e ->
        has_dask import_module = Returns false).
Proof.
  unfold has_dask, try_except_ImportError. simpl.
  split; [|split; [|split]].
  - destruct (import_module "dask") as [m1 | e1]; simpl.
    + destruct (import_module "dask.distributed") as [m2 | e2]; simpl.
      * destruct (import_module "dask.dataframe") as [m3 | e3]; simpl.
        -- split; [intros _; repeat split; eexists; reflexivity
                  | intros _; reflexivity].
        -- split; [destruct (is_ImportError e3); discriminate|].
           intros (_ & _ & [m Hm]). discriminate Hm.
      * split; [destruct (is_ImportError e2); discriminate|].
        intros (_ & [m Hm] & _). discriminate Hm.
    + split; [destruct (is_ImportError e1); discriminate|].
      intros ([m Hm] & _). discriminate Hm.
  - intros e He ->. simpl. rewrite He. reflexivity.
  - intros m e He -> ->. simpl. rewrite He. reflexivity.
  - intros m1 m2 e He -> -> ->. simpl. rewrite He. reflexivity.
Qed.

(** [has_xgboost] returns [True] when xgboost imports and [False],
    without a warning, when the import raises [ImportError].  Any other
    [Exception] of the import is not raised: the function issues one
    warning quoting the error and returns [False], unless
    [warnings.warn] itself raises, and then that exception leaves the
    function.  An exception that is no [Exception] propagates. *)
Theorem has_xgboost_swallows_exceptions :
  (forall warnings_warn m,
     import_module "xgboost" = Returns m ->
     has_xgboost import_module warnings_warn = Returns true)
  /\ (forall warnings_warn e,
        import_module "xgboost" = Raises e ->
        is_ImportError e = true ->
        has_xgboost import_module warnings_warn = Returns false)
  /\ (forall warnings_warn e,
        import_module "xgboost" = Raises e ->
        is_ImportError e = false ->
        is_Exception e = true ->
        (warnings_warn (xgboost_warning e) = Returns tt ->
         has_xgboost import_module warnings_warn = Returns false)
        /\ (forall e',
              warnings_warn (xgboost_warning e) = Raises e' ->
              has_xgboost import_module warnings_warn = Raises e'))
  /\ (forall warnings_warn e,
        import_module "xgboost" = Raises e ->
        is_Exception e = false ->
        has_xgboost import_module warnings_warn = Raises e).
Proof.
  unfold has_xgboost. split; [|split; [|split]].
  - intros w m ->. reflexivity.
  - intros w e -> ->. reflexivity.
  - intros w e -> -> ->. split.
    + intros ->. reflexivity.
    + intros e' ->. reflexivity.
  - intros w e -> Hexc.
    assert (Hi : is_ImportError e = false)
      by (destruct e; try reflexivity; discriminate Hexc).
    rewrite Hi, Hexc. reflexivity.
Qed.

End AvailabilityProperties.

Lemma single_import_checks_witness :
  ImportUtils.has_cupy
    (fun _ => Raises (ValueError "libcuda.so not found"%string))
  = Raises (ValueError "libcuda.so not found"%string).
Proof.
  pose proof (single_import_checks
                (fun _ => Raises (ValueError "libcuda.so not found"%string))
                (ImportUtils.has_cupy
                   (fun _ => Raises (ValueError "libcuda.so not found"%string)))
                "cupy"%string) as H.
  simpl in H.
  destruct H as [_ H2]; [tauto|].
  exact (H2 eq_refl).
Defined.

Lemma has_dask_needs_all_three_witness :
  ImportUtils.has_dask
    (fun name =>
       if String.eqb name "dask.dataframe"
       then Raises (ImportError "No module named 'pandas'"%string)
       else Returns (ImportUtils.Module_ name))
  = Returns false.
Proof.
  apply (proj2 (proj2 (proj2 (has_dask_needs_all_three
           (fun name =>
              if String.eqb name "dask.dataframe"
              then Raises (ImportError "No module named 'pandas'"%string)
              else Returns (ImportUtils.Module_ name)))))
           (ImportUtils.Module_ "dask"%string)
           (ImportUtils.Module_ "dask.distributed"%string)
           (ImportError "No module named 'pandas'"%string));
    reflexivity.
Defined.

Lemma has_xgboost_swallows_exceptions_witness :
  ImportUtils.has_xgboost
    (fun _ => Raises (ValueError "libgomp missing"%string))
    (fun _ => Returns tt)
  = Returns false
  /\ ImportUtils.has_xgboost
       (fun _ => Raises (ValueError "libgomp missing"%string))
       (fun message => Raises (UserWarning message))
     = Raises
         (UserWarning
            (ImportUtils.xgboost_warning
               (ValueError "libgomp missing"%string))).
Proof.
  split.
  - apply (proj1 (proj1 (proj2 (proj2 (has_xgboost_swallows_exceptions
             (fun _ => Raises (ValueError "libgomp missing"%string)))))
             (fun _ => Returns tt) (ValueError "libgomp missing"%string)
             eq_refl eq_refl eq_refl)).
    reflexivity.
  - apply (proj2 (proj1 (proj2 (proj2 (has_xgboost_swallows_exceptions
             (fun _ => Raises (ValueError "libgomp missing"%string)))))
             (fun message => Raises (UserWarning message))
             (ValueError "libgomp missing"%string)
             eq_refl eq_refl eq_refl)).
    reflexivity.
Defined.

Section OptionalChecks.

Import ImportUtils.

Variable import_module : string -> call py_module.
Variable import_from : string -> string -> call unit.
Variable version_of : py_module -> call string.
Variable LooseVersion_ge : string -> string -> call bool.

(** [has_scipy] and [has_hdbscan_plots] differ in their defaults.  With
    [raise_if_unavailable] false neither ever raises [ImportError] and a
    missing package gives [False]; with it true a missing package raises
    an [ImportError] with the function's own message in place of the
    original one.  The flag is false by default for [has_scipy] and true
    by default for [has_hdbscan_plots]. *)
Theorem unavailable_package_flag e :
  is_ImportError e = true ->
  (import_module "scipy" = Raises e ->
   has_scipy import_module false = Returns false
   /\ has_scipy import_module true
      = Raises (ImportError "Scipy is not available."))
  /\ (import_from "hdbscan.plots" "SingleLinkageTree" = Raises e ->
      has_hdbscan_plots import_from false = Returns false
      /\ has_hdbscan_plots import_from true
         = Raises (ImportError "hdbscan must be installed to use plots."))
  /\ (forall e', has_scipy import_module false = Raises e' ->
                 is_ImportError e' = false)
  /\ (forall e', has_hdbscan_plots import_from false = Raises e' ->
                 is_ImportError e' = false).
Proof.
  intros He. unfold has_scipy, has_hdbscan_plots, try_except_ImportError.
  simpl. repeat split.
  - rewrite H. simpl. rewrite He. reflexivity.
  - rewrite H. simpl. rewrite He. reflexivity.
  - rewrite H. simpl. rewrite He. reflexivity.
  - rewrite H. simpl. rewrite He. reflexivity.
  - intros e'. destruct (import_module "scipy") as [m | e0]; simpl;
      [discriminate|].
    destruct (is_ImportError e0) eqn:E; [discriminate|].
    intros H. injection H as <-. exact E.
  - intros e'.
    destruct (import_from "hdbscan.plots" "SingleLinkageTree") as [u | e0];
      simpl; [discriminate|].
    destruct (is_ImportError e0) eqn:E; [discriminate|].
    intros H. injection H as <-. exact E.
Qed.

(** When the package to be checked raises [ImportError], every version
    check answers [False] without reading a version or comparing
    anything; and [has_shap] and [has_daskglm] with [min_version=None]
    answer [True] for an importable package without reading its
    version. *)
Theorem version_checks_without_versions version :
  (forall e, is_ImportError e = true -> import_module "dask" = Raises e ->
     check_min_dask_version import_module version_of LooseVersion_ge version
     = Returns false)
  /\ (forall e, is_ImportError e = true -> import_module "cupy" = Raises e ->
        check_min_cupy_version import_module version_of LooseVersion_ge
          version = Returns false)
  /\ (forall e min_version,
        is_ImportError e = true -> import_module "shap" = Raises e ->
        has_shap import_module version_of LooseVersion_ge min_version
        = Returns false)
  /\ (forall e min_version,
        is_ImportError e = true -> import_module "dask_glm" = Raises e ->
        has_daskglm import_module version_of LooseVersion_ge min_version
        = Returns false)
  /\ (forall m, import_module "shap" = Returns m ->
        has_shap import_module version_of LooseVersion_ge None
        = Returns true)
  /\ (forall m, import_module "dask_glm" = Returns m ->
        has_daskglm import_module version_of LooseVersion_ge None
        = Returns true).
Proof.
  unfold check_min_dask_version, check_min_cupy_version, has_shap,
    has_daskglm, has_cupy, try_except_ImportError, call_bind, imports.
  repeat split.
  - intros e He Hm. rewrite Hm. simpl. rewrite He. reflexivity.
  - intros e He Hm. rewrite Hm. simpl. rewrite He. reflexivity.
  - intros e mv He Hm. rewrite Hm. simpl. rewrite He. reflexivity.
  - intros e mv He Hm. rewrite Hm. simpl. rewrite He. reflexivity.
  - intros m Hm. rewrite Hm. reflexivity.
  - intros m Hm. rewrite Hm. reflexivity.
Qed.

(** A version check on an importable package returns what the comparison
    of the package's version with the requested one returns, and an
    exception of that comparison other than [ImportError] is raised. *)
Theorem version_checks_compare m v version :
  version_of m = Returns v ->
  (import_module "dask" = Returns m ->
   check_min_dask_version import_module version_of LooseVersion_ge version
   = try_except_ImportError (LooseVersion_ge v version) (Returns false))
  /\ (import_module "cupy" = Returns m ->
      check_min_cupy_version import_module version_of LooseVersion_ge version
      = LooseVersion_ge v version)
  /\ (import_module "shap" = Returns m ->
      has_shap import_module version_of LooseVersion_ge (Some version)
      = try_except_ImportError (LooseVersion_ge v version) (Returns false)).
Proof.
  intros Hv.
  unfold check_min_dask_version, check_min_cupy_version, has_shap,
    has_cupy, try_except_ImportError, call_bind, imports.
  repeat split; intros Hm; rewrite ?Hm; simpl; rewrite ?Hm, Hv; reflexivity.
Qed.

End OptionalChecks.

Lemma unavailable_package_flag_witness :
  ImportUtils.has_scipy
    (fun _ => Raises (ImportError "No module named 'scipy'"%string)) false
  = Returns false
  /\ ImportUtils.has_scipy
       (fun _ => Raises (ImportError "No module named 'scipy'"%string)) true
     = Raises (ImportError "Scipy is not available."%string).
Proof.
  apply (proj1 (unavailable_package_flag
           (fun _ => Raises (ImportError "No module named 'scipy'"%string))
           (fun _ _ => Raises (ImportError "No module named 'hdbscan'"%string))
           (ImportError "No module named 'scipy'"%string) eq_refl)).
  reflexivity.
Defined.

Lemma version_checks_without_versions_witness :
  ImportUtils.check_min_dask_version
    (fun _ => Raises (ImportError "No module named 'dask'"%string))
    (fun _ => Returns "2022.1"%string)
    (fun a b => Returns (String.leb b a)) "2021.0"%string
  = Returns false.
Proof.
  apply (proj1 (version_checks_without_versions
           (fun _ => Raises (ImportError "No module named 'dask'"%string))
           (fun _ => Returns "2022.1"%string)
           (fun a b => Returns (String.leb b a)) "2021.0"%string)
           (ImportError "No module named 'dask'"%string));
    reflexivity.
Defined.

Lemma version_checks_compare_witness :
  ImportUtils.has_shap
    (fun name => Returns (ImportUtils.Module_ name))
    (fun _ => Returns "0.41"%string)
    (fun a b => Returns (String.leb b a)) (Some "0.37"%string)
  = ImportUtils.try_except_ImportError
      (Returns (String.leb "0.37" "0.41")) (Returns false).
Proof.
  apply (proj2 (proj2 (version_checks_compare
           (fun name => Returns (ImportUtils.Module_ name))
           (fun _ => Returns "0.41"%string)
           (fun a b => Returns (String.leb b a))
           (ImportUtils.Module_ "shap"%string) "0.41"%string "0.37"%string
           eq_refl)));
    reflexivity.
Defined.

(** * Properties of the package module *)

Section PackageGetattr.

Import CumlInit.

Variable settings : Type.

(** Once an access to [global_settings] has found the settings, they are
    stored, and every later access returns the very same settings and
    leaves the state as it is, whatever the constructor would do: the
    constructor runs only while no settings are stored. *)
Theorem global_settings_created_once
    (GlobalSettings : call settings) data s data' :
  module__getattr__ settings GlobalSettings "global_settings" data
    = (Found s, data') ->
  data' = Some s
  /\ (forall s0, data = Some s0 -> s = s0)
  /\ forall GlobalSettings' : call settings,
       module__getattr__ settings GlobalSettings' "global_settings" data'
       = (Found s, data').
Proof.
  unfold module__getattr__. simpl.
  destruct data as [s0|].
  - intros H. injection H as <- <-. split; [reflexivity|].
    split; [intros s1 H; injection H as <-; reflexivity|].
    intros GS'. reflexivity.
  - destruct GlobalSettings as [s1 | e]; [|discriminate].
    intros H. injection H as <- <-. split; [reflexivity|].
    split; [discriminate|]. intros GS'. reflexivity.
Qed.

(** An access that does not find settings never changes the state: any
    name other than [global_settings] ends in [AttributeError] naming the
    attribute, without running the constructor, and a constructor that
    raises leaves the settings absent, so that the next access runs it
    again. *)
Theorem failed_access_keeps_state
    (GlobalSettings : call settings) name data :
  (name <> "global_settings"%string ->
   module__getattr__ settings GlobalSettings name data
   = (AttributeError ("module cuml has no attribute " ++ name)%string, data))
  /\ (forall e,
        GlobalSettings = Raises e ->
        module__getattr__ settings GlobalSettings "global_settings" None
        = (ConstructorRaised e, None))
  /\ ((forall s,
         fst (module__getattr__ settings GlobalSettings name data)
         <> Found s) ->
      snd (module__getattr__ settings GlobalSettings name data) = data).
Proof.
  unfold module__getattr__. split; [|split].
  - intros Hname. apply String.eqb_neq in Hname. rewrite Hname.
    reflexivity.
  - intros e ->. reflexivity.
  - destruct (String.eqb name "global_settings") eqn:E; [|reflexivity].
    intros Hnot. destruct data as [s0|]; [reflexivity|].
    destruct GlobalSettings as [s1 | e]; [|reflexivity].
    exfalso. apply (Hnot s1). reflexivity.
Qed.

End PackageGetattr.

Lemma global_settings_created_once_witness :
  Some 7%nat = Some 7%nat
  /\ (forall s0, @None nat = Some s0 -> 7%nat = s0)
  /\ forall GlobalSettings' : call nat,
       CumlInit.module__getattr__ nat GlobalSettings' "global_settings"
         (Some 7%nat)
       = (CumlInit.Found 7%nat, Some 7%nat).
Proof.
  apply (global_settings_created_once nat (Returns 7%nat) None 7%nat
           (Some 7%nat)).
  reflexivity.
Defined.

Lemma failed_access_keeps_state_witness :
  CumlInit.module__getattr__ nat (Returns 7%nat) "global_setting"%string
    (Some 3%nat)
  = (CumlInit.AttributeError
       "module cuml has no attribute global_setting"%string, Some 3%nat).
Proof.
  apply (proj1 (failed_access_keeps_state nat (Returns 7%nat)
                  "global_setting"%string (Some 3%nat))).
  discriminate.
Defined.
